(** * rsync-tui: a shallow embedding of [rsync-tui.py]

    The development follows the source file top to bottom: the Python
    string primitives the program relies on, the [ls] output parser, the
    remote listing with its fallback commands, the transfer engine
    ([rsync_pull] with its progress parser) and the key handlers of
    [interactive_browse].

    Text is modelled by [string] (a sequence of 8-bit characters, i.e. the
    UTF-8 bytes of the Python [str]); whitespace and digits are the ASCII
    ones.  Python integers are [Z].  An operation that can raise returns a
    [result]. *)

From Stdlib Require Import ZArith Ascii String DecimalString Lia.
From stdpp Require Import gmap strings list.

Local Open Scope string_scope.
Local Open Scope list_scope.
Local Open Scope Z_scope.

(** ** Exceptions and fallible computations *)

Inductive exn : Type :=
| IndexError
| ValueError
| CalledProcessError
| ProcessLookupError
| PermissionError
| SystemExit (code : Z).

Inductive result (A : Type) : Type :=
| Ok (a : A)
| Raise (e : exn).
Arguments Ok {A} a.
Arguments Raise {A} e.

#[global] Instance result_ret : MRet result := fun A a => Ok a.
#[global] Instance result_bind : MBind result := fun A B k r =>
  match r with
  | Ok a => k a
  | Raise e => Raise e
  end.

(** ** Python [str] primitives *)

Module Py.

(** [str.isspace] on one ASCII character: TAB, LF, VT, FF, CR, the four
    separators FS GS RS US, and SPACE. *)
Definition is_space (c : ascii) : bool :=
  let n := nat_of_ascii c in
  ((9 <=? n)%nat && (n <=? 13)%nat) || ((28 <=? n)%nat && (n <=? 32)%nat).

(** [\d] on one ASCII character. *)
Definition is_digit (c : ascii) : bool :=
  let n := nat_of_ascii c in
  (48 <=? n)%nat && (n <=? 57)%nat.

Definition is_empty (s : string) : bool :=
  match s with
  | EmptyString => true
  | String _ _ => false
  end.

(** [s.lstrip()] *)
Fixpoint lstrip (s : string) : string :=
  match s with
  | EmptyString => EmptyString
  | String c r => if is_space c then lstrip r else s
  end.

(** [s.rstrip()] *)
Fixpoint rstrip (s : string) : string :=
  match s with
  | EmptyString => EmptyString
  | String c r =>
      let r' := rstrip r in
      if is_space c && is_empty r' then EmptyString else String c r'
  end.

(** [s.strip()] *)
Definition strip (s : string) : string := lstrip (rstrip s).

(** [s.rstrip(c)] for a one-character argument *)
Fixpoint rstrip_char (x : ascii) (s : string) : string :=
  match s with
  | EmptyString => EmptyString
  | String c r =>
      let r' := rstrip_char x r in
      if Ascii.eqb c x && is_empty r' then EmptyString else String c r'
  end.

(** [s.startswith(p)] *)
Fixpoint startswith (p s : string) : bool :=
  match p, s with
  | EmptyString, _ => true
  | String a p', String b s' => Ascii.eqb a b && startswith p' s'
  | String _ _, EmptyString => false
  end.

(** Puts [c] in front of the first field of a list of fields. *)
Definition cons_head (c : ascii) (fields : list string) : list string :=
  match fields with
  | [] => [String c EmptyString]
  | f :: fs => String c f :: fs
  end.

(** [s.split(sep)] for a one-character separator: always at least one
    field, empty fields kept. *)
Fixpoint split (sep : ascii) (s : string) : list string :=
  match s with
  | EmptyString => [EmptyString]
  | String c r =>
      if Ascii.eqb c sep then EmptyString :: split sep r
      else cons_head c (split sep r)
  end.

(** [s.split(None, maxsplit)]: runs of whitespace separate the fields, at
    most [maxsplit] splits are made and what is left after them (leading
    whitespace skipped) is the last field, taken as it is.  [in_field]
    tells whether the scan is inside a field, whose remaining characters
    are then the head of the result. *)
Fixpoint split_ws_from (in_field : bool) (maxsplit : nat) (s : string)
  : list string :=
  match s with
  | EmptyString => if in_field then [EmptyString] else []
  | String c r =>
      if in_field then
        if is_space c then EmptyString :: split_ws_from false maxsplit r
        else cons_head c (split_ws_from true maxsplit r)
      else
        if is_space c then split_ws_from false maxsplit r
        else
          match maxsplit with
          | O => [s]
          | S m => cons_head c (split_ws_from true m r)
          end
  end.

Definition split_ws (maxsplit : nat) (s : string) : list string :=
  split_ws_from false maxsplit s.

(** [sep.join(parts)] *)
Fixpoint join (sep : string) (parts : list string) : string :=
  match parts with
  | [] => EmptyString
  | [p] => p
  | p :: ps => p +:+ sep +:+ join sep ps
  end.

(** [str(n)] for an integer *)
Definition str (n : Z) : string := NilZero.string_of_int (Z.to_int n).

(** The value of one decimal digit. *)
Definition digit_val (c : ascii) : Z := Z.of_nat (nat_of_ascii c) - 48.

(** [int(s)] on a string of decimal digits, most significant first. *)
Fixpoint int_from (acc : Z) (s : string) : Z :=
  match s with
  | EmptyString => acc
  | String c r => int_from (10 * acc + digit_val c) r
  end.

Definition int (s : string) : Z := int_from 0 s.

(** [s.endswith(c)] for a one-character argument *)
Fixpoint endswith_char (x : ascii) (s : string) : bool :=
  match s with
  | EmptyString => false
  | String c EmptyString => Ascii.eqb c x
  | String _ r => endswith_char x r
  end.

(** [l[i]] on a list, negative indices counting from the end. *)
Definition index {A : Type} (l : list A) (i : Z) : result A :=
  let n := Z.of_nat (length l) in
  let j := if i <? 0 then i + n else i in
  if (0 <=? j) && (j <? n) then
    match l !! Z.to_nat j with
    | Some x => Ok x
    | None => Raise IndexError
    end
  else Raise IndexError.

(** [s[i]] on a string: a string of one character. *)
Definition char_at (s : string) (i : Z) : result string :=
  c ← index (list_ascii_of_string s) i; Ok (String c EmptyString).

End Py.

(** ** [os.path] on POSIX, after CPython's [posixpath] *)

Module PosixPath.

(** [p[:p.rfind('/') + 1]]: the part of [p] up to and including its last
    slash, empty when [p] has none. *)
Fixpoint head_of (p : string) : string :=
  match p with
  | EmptyString => EmptyString
  | String c r =>
      let h := head_of r in
      if negb (Py.is_empty h) then String c h
      else if Ascii.eqb c "/" then String c EmptyString
      else EmptyString
  end.

(** [head == '/' * len(head)] *)
Fixpoint all_slashes (s : string) : bool :=
  match s with
  | EmptyString => true
  | String c r => Ascii.eqb c "/" && all_slashes r
  end.

Definition dirname (p : string) : string :=
  let head := head_of p in
  if negb (Py.is_empty head) && negb (all_slashes head)
  then Py.rstrip_char "/" head
  else head.

(** [os.path.join(a, b)] with one component [b] *)
Definition join (a b : string) : string :=
  if Py.startswith "/" b then b
  else if Py.is_empty a || Py.endswith_char "/" a then a +:+ b
  else a +:+ "/" +:+ b.

(** The number of leading slashes [normpath] keeps: POSIX allows one or
    two, three or more count as one. *)
Definition initial_slashes (path : string) : nat :=
  if Py.startswith "/" path then
    if Py.startswith "//" path && negb (Py.startswith "///" path)
    then 2%nat else 1%nat
  else 0%nat.

(** One round of the loop of [normpath] over the components. *)
Definition norm_step (slashes : nat) (new_comps : list string)
    (comp : string) : list string :=
  if bool_decide (comp = "") || bool_decide (comp = ".") then new_comps
  else if negb (bool_decide (comp = ".."))
          || ((slashes =? 0)%nat && bool_decide (new_comps = []))
          || (negb (bool_decide (new_comps = []))
              && bool_decide (last new_comps = Some ".."))
  then new_comps ++ [comp]
  else removelast new_comps.

Fixpoint repeat_slash (n : nat) : string :=
  match n with
  | O => EmptyString
  | S m => String "/" (repeat_slash m)
  end.

Definition normpath (path : string) : string :=
  if Py.is_empty path then "."
  else
    let slashes := initial_slashes path in
    let comps := fold_left (norm_step slashes) (Py.split "/" path) [] in
    let joined := repeat_slash slashes +:+ Py.join "/" comps in
    if Py.is_empty joined then "." else joined.

End PosixPath.


(** ** Directory entries and the [ls] parser *)

(** One row of a listing: the dictionary built by [parse_ls_output]. *)
Module Entry.
Record t : Type := mk {
  ftype : string;
  perms : string;
  user : string;
  group : string;
  size : string;
  date : string;
  time : string;
  name : string
}.
End Entry.

#[global] Instance entry_eq_dec : EqDecision Entry.t.
Proof. solve_decision. Defined.

(** The body of the loop of [parse_ls_output] for one line: [None] stands
    for [continue]. *)
Definition parse_ls_line (line : string) : result (option Entry.t) :=
  if Py.startswith "total" line then Ok None
  else
    let parts := Py.split_ws 7 line in
    if (length parts <? 8)%nat then Ok None
    else
      match parts with
      | [perms; links; user; group; size; date; time; name] =>
          ftype ← Py.char_at perms 0;
          Ok (Some (Entry.mk ftype perms user group size date time name))
      | _ => Raise ValueError
      end.

Fixpoint parse_ls_lines (lines : list string) (entries : list Entry.t)
  : result (list Entry.t) :=
  match lines with
  | [] => Ok entries
  | line :: rest =>
      r ← parse_ls_line line;
      match r with
      | None => parse_ls_lines rest entries
      | Some e => parse_ls_lines rest (entries ++ [e])
      end
  end.

Definition ls_lines (output : string) : list string :=
  Py.split "010" (Py.strip output).

Definition parse_ls_output (output : string) : result (list Entry.t) :=
  parse_ls_lines (ls_lines output) [].

(** ** Remote execution and the listing *)

(** What [subprocess.run(..., capture_output=True, text=True)] hands back. *)
Record CompletedProcess : Type := mkCompleted {
  returncode : Z;
  stdout : string
}.

(** The remote-exec collaborator: the outcome of running an argument
    vector. *)
Definition Exec : Type := list string -> CompletedProcess.

(** [subprocess.run(argv, check=...)] *)
Definition subprocess_run (exec : Exec) (check : bool) (argv : list string)
  : result CompletedProcess :=
  let r := exec argv in
  if check && negb (returncode r =? 0) then Raise CalledProcessError
  else Ok r.

Definition ssh_argv (user host : string) (port : Z) (cmd : string)
  : list string :=
  ["ssh"; "-p"; Py.str port; user +:+ "@" +:+ host; cmd].

Definition ls_bins : list string := ["/bin/ls"; "/usr/bin/ls"; "ls"].

Definition ls_cmds (path : string) : list string :=
  flat_map (fun bin =>
              [bin +:+ " -lA --time-style=long-iso " +:+ path;
               bin +:+ " -lA " +:+ path]) ls_bins.

(** The loop of [get_entries] over the listing commands.  Besides the
    value of [result] when the loop ends, it returns the commands that
    were run, in order. *)
Fixpoint run_ls_cmds (exec : Exec) (user host : string) (port : Z)
    (cmds : list string)
  : list (list string) * result (option CompletedProcess) :=
  match cmds with
  | [] => ([], Ok None)
  | ls_cmd :: rest =>
      let ssh_cmd := ssh_argv user host port ls_cmd in
      match subprocess_run exec true ssh_cmd with
      | Ok r => ([ssh_cmd], Ok (Some r))
      | Raise CalledProcessError =>
          let (ran, res) := run_ls_cmds exec user host port rest in
          (ssh_cmd :: ran, res)
      | Raise e => ([ssh_cmd], Raise e)
      end
  end.

Definition dotdot : Entry.t :=
  Entry.mk "d" "drwxr-xr-x" "" "" "" "" "" "..".

Definition get_entries (exec : Exec) (user host : string) (port : Z)
    (path : string) : result (list Entry.t) :=
  result ← (run_ls_cmds exec user host port (ls_cmds path)).2;
  match result with
  | None => Ok []
  | Some r =>
      entries ← parse_ls_output (stdout r);
      if negb (bool_decide (path = "/")) then Ok (dotdot :: entries)
      else Ok entries
  end.

Definition install_cmds : list string :=
  ["sudo apt-get update && sudo apt-get install -y rsync";
   "sudo yum install -y rsync"].

(** The loop of [check_and_install_rsync] over the install commands and
    what follows it: [sys.exit(1)] when none succeeds. *)
Fixpoint try_install (exec : Exec) (user host : string) (port : Z)
    (installs : list string) : result bool :=
  match installs with
  | [] => Raise (SystemExit 1)
  | install :: rest =>
      res ← subprocess_run exec false (ssh_argv user host port install);
      if returncode res =? 0 then Ok true
      else try_install exec user host port rest
  end.

Definition check_and_install_rsync (exec : Exec) (user host : string)
    (port : Z) : result bool :=
  result ← subprocess_run exec false
             (ssh_argv user host port "command -v rsync");
  if returncode result =? 0 then Ok true
  else try_install exec user host port install_cmds.

Definition get_remote_home (exec : Exec) (user host : string) (port : Z)
  : result string :=
  result ← subprocess_run exec false (ssh_argv user host port "echo $HOME");
  if returncode result =? 0
  then Ok (PosixPath.normpath (Py.strip (stdout result)))
  else Ok "/".

(** ** The transfer engine: [rsync_pull] *)

(** [re.search(r'to-chk=(\d+)/(\d+)', line)].  The pattern has no choice
    point: the text [to-chk=] is fixed, and a greedy run of digits followed
    by a non-digit can only end where the digits end. *)
Module Re.

(** What is left of [s] after the literal text [p], when [s] starts
    with it. *)
Fixpoint literal (p s : string) : option string :=
  match p, s with
  | EmptyString, _ => Some s
  | String a p', String b s' =>
      if Ascii.eqb a b then literal p' s' else None
  | String _ _, EmptyString => None
  end.

(** The longest run of digits at the start of [s], and what follows it. *)
Fixpoint digits (s : string) : string * string :=
  match s with
  | EmptyString => (EmptyString, EmptyString)
  | String c r =>
      if Py.is_digit c then
        let (d, rest) := digits r in (String c d, rest)
      else (EmptyString, s)
  end.

(** A match of the pattern at the very start of [s]: its two groups. *)
Definition match_here (s : string) : option (string * string) :=
  match literal "to-chk=" s with
  | None => None
  | Some s1 =>
      let (g1, s2) := digits s1 in
      if Py.is_empty g1 then None
      else
        match s2 with
        | String c s3 =>
            if Ascii.eqb c "/" then
              let (g2, _) := digits s3 in
              if Py.is_empty g2 then None else Some (g1, g2)
            else None
        | EmptyString => None
        end
  end.

(** The leftmost match in [s]. *)
Fixpoint search (s : string) : option (string * string) :=
  match match_here s with
  | Some m => Some m
  | None =>
      match s with
      | EmptyString => None
      | String _ r => search r
      end
  end.

End Re.

(** The text of the three status messages of the engine, as the source
    spells them: file progress, transfer complete, transfer failed. *)
Definition progress_message (done total : Z) : string :=
  "文件进度: " +:+ Py.str done +:+ "/" +:+ Py.str total.
Definition msg_complete : string := "传输完毕".
Definition msg_failed : string := "同步失败".

Definition parse_file_progress (line : string) : option string :=
  match Re.search line with
  | Some (g1, g2) =>
      let remain := Py.int g1 in
      let total := Py.int g2 in
      let done := total - remain in
      Some (progress_message done total)
  | None => None
  end.

(** A [subprocess.Popen] object: [obj] is the identity of the object,
    [pid] the process it started. *)
Record Popen : Type := mkPopen {
  obj : nat;
  pid : Z
}.

#[global] Instance Popen_eq_dec : EqDecision Popen.
Proof. solve_decision. Defined.

(** A transfer that runs to its end: the handle, the lines the tool
    writes (standard output and error together) and its exit code. *)
Record Process : Type := mkProcess {
  handle : Popen;
  proc_lines : list string;
  proc_rc : Z
}.

(** The calls [rsync_pull] makes on the two callbacks it is given. *)
Inductive callback : Type :=
| SetMessage (msg : string)
| AppendOutput (line : string).

Definition rsync_cmd (user host remote_path local_path : string) (port : Z)
    (follow_symlinks : bool) : list string :=
  let remote_path := PosixPath.normpath remote_path in
  let local_path := PosixPath.normpath local_path in
  let ssh_cmd := "ssh -p " +:+ Py.str port +:+
    " -o LogLevel=ERROR -o StreamLocalBindUnlink=yes -o ServerAliveInterval=30" in
  ["stdbuf"; "-oL"; "rsync"; "-avz"; "--progress"; "--partial"; "-e"; ssh_cmd]
  ++ (if follow_symlinks then ["-L"] else [])
  ++ [user +:+ "@" +:+ host +:+ ":" +:+ remote_path; local_path].

(** The body of the loop of [reader] for one line. *)
Definition reader_line (append_output : bool) (line : string)
  : list callback :=
  (if append_output then [AppendOutput (Py.rstrip line)] else [])
  ++ match parse_file_progress line with
     | Some msg => if Py.is_empty msg then [] else [SetMessage msg]
     | None => []
     end.

Definition reader (append_output : bool) (lines : list string)
  : list callback :=
  flat_map (reader_line append_output) lines.

(** [l.remove(x)]: the first occurrence goes, [ValueError] without one. *)
Fixpoint list_remove {A : Type} `{EqDecision A} (x : A) (l : list A)
  : result (list A) :=
  match l with
  | [] => Raise ValueError
  | y :: r =>
      if decide (y = x) then Ok r
      else r' ← list_remove x r; Ok (y :: r')
  end.

(** [rsync_pull] after the launch: registration of the handle. *)
Definition rsync_register (active_procs : option (list Popen))
    (proc : Popen) : option (list Popen) :=
  match active_procs with
  | Some l => Some (l ++ [proc])
  | None => None
  end.

(** [rsync_pull] from [rc = proc.wait()] on: the handle leaves the list
    (an exception of [remove] is passed over) and the last status is
    set. *)
Definition rsync_finish (active_procs : option (list Popen))
    (proc : Popen) (rc : Z) : list callback * option (list Popen) :=
  let active_procs :=
    match active_procs with
    | Some l =>
        match list_remove proc l with
        | Ok l' => Some l'
        | Raise _ => Some l
        end
    | None => None
    end in
  (if rc =? 0 then [SetMessage msg_complete] else [SetMessage msg_failed],
   active_procs).

(** [rsync_pull]: [popen] is the launch of the command, the calls on the
    callbacks come back in the order they are made. *)
Definition rsync_pull (popen : list string -> Process)
    (user host remote_path local_path : string) (port : Z)
    (follow_symlinks : bool) (active_procs : option (list Popen))
    (append_output : bool) : list callback * option (list Popen) :=
  let p := popen (rsync_cmd user host remote_path local_path port
                    follow_symlinks) in
  let proc := handle p in
  let active_procs := rsync_register active_procs proc in
  let read := reader append_output (proc_lines p) in
  let rc := proc_rc p in
  let (last, active_procs) := rsync_finish active_procs proc rc in
  (read ++ last, active_procs).

(** ** The browser: the state of [interactive_browse] and its key handlers *)

(** The local variables of [interactive_browse] that the handlers share. *)
Record Browser : Type := mkBrowser {
  cwd : string;
  selected : Z;
  selected_files : gset string;
  message : string;
  active_procs : list Popen;
  output_lines : list string;
  page_start : Z;
  entries : list Entry.t
}.

Definition page_size : Z := 20.

Definition len {A : Type} (l : list A) : Z := Z.of_nat (length l).

(** [refresh] recomputes the text of the two controls from the state and
    touches none of the variables above; the handlers below leave it
    out. *)

Definition set_message_threadsafe (msg : string) (s : Browser) : Browser :=
  mkBrowser (cwd s) (selected s) (selected_files s) msg (active_procs s)
    (output_lines s) (page_start s) (entries s).

Definition append_output (line : string) (s : Browser) : Browser :=
  let lines := output_lines s ++ [line] in
  let lines := if (30 <? len lines) then drop 1 lines else lines in
  mkBrowser (cwd s) (selected s) (selected_files s) (message s)
    (active_procs s) lines (page_start s) (entries s).

Definition set_cursor (sel start : Z) (s : Browser) : Browser :=
  mkBrowser (cwd s) sel (selected_files s) (message s) (active_procs s)
    (output_lines s) start (entries s).

Definition update_entries (exec : Exec) (user host : string) (port : Z)
    (s : Browser) : result Browser :=
  es ← get_entries exec user host port (cwd s);
  Ok (mkBrowser (cwd s) 0 (selected_files s) (message s) (active_procs s)
        (output_lines s) 0 es).

Definition key_up (s : Browser) : Browser :=
  if 0 <? selected s then
    let sel := selected s - 1 in
    let start := if sel <? page_start s then Z.max 0 sel else page_start s in
    set_cursor sel start s
  else s.

Definition key_down (s : Browser) : Browser :=
  if selected s <? len (entries s) - 1 then
    let sel := selected s + 1 in
    let start :=
      if page_start s + page_size <=? sel then sel - page_size + 1
      else page_start s in
    set_cursor sel start s
  else s.

Definition key_pageup (s : Browser) : Browser :=
  if 0 <? selected s then
    let sel := Z.max 0 (selected s - page_size) in
    let start := Z.max 0 (page_start s - page_size) in
    set_cursor sel start s
  else s.

Definition key_pagedown (s : Browser) : Browser :=
  if selected s <? len (entries s) - 1 then
    let sel := Z.min (len (entries s) - 1) (selected s + page_size) in
    let start :=
      Z.min (Z.max 0 (len (entries s) - page_size))
            (page_start s + page_size) in
    let start :=
      if start + page_size <=? sel then sel - page_size + 1 else start in
    set_cursor sel start s
  else s.

Definition key_space (s : Browser) : result Browser :=
  entry ← Py.index (entries s) (selected s);
  let n := Entry.name entry in
  let marked :=
    if bool_decide (n ∈ selected_files s) then selected_files s ∖ {[n]}
    else selected_files s ∪ {[n]} in
  Ok (mkBrowser (cwd s) (selected s) marked (message s) (active_procs s)
        (output_lines s) (page_start s) (entries s)).

Definition with_cwd (path : string) (s : Browser) : Browser :=
  mkBrowser path (selected s) (selected_files s) (message s)
    (active_procs s) (output_lines s) (page_start s) (entries s).

(** [os.path.dirname(cwd.rstrip('/')) or '/'] *)
Definition parent_dir (path : string) : string :=
  let d := PosixPath.dirname (Py.rstrip_char "/" path) in
  if Py.is_empty d then "/" else d.

Definition key_enter (exec : Exec) (user host : string) (port : Z)
    (s : Browser) : result Browser :=
  entry ← Py.index (entries s) (selected s);
  if bool_decide (Entry.name entry = "..") then
    s' ← update_entries exec user host port (with_cwd (parent_dir (cwd s)) s);
    Ok (set_cursor 0 (page_start s') s')
  else if bool_decide (Entry.ftype entry = "d") then
    s' ← update_entries exec user host port
           (with_cwd (PosixPath.join (cwd s) (Entry.name entry)) s);
    Ok (set_cursor 0 (page_start s') s')
  else Ok s.

Definition key_any (s : Browser) : Browser :=
  if negb (Py.is_empty (message s)) then set_message_threadsafe "" s else s.

(** The keys of the browser that change its state and return. *)
Inductive key : Type :=
| Up | Down | PageUp | PageDown | Space | Enter | AnyKey.

Definition handle_key (exec : Exec) (user host : string) (port : Z)
    (k : key) (s : Browser) : result Browser :=
  match k with
  | Up => Ok (key_up s)
  | Down => Ok (key_down s)
  | PageUp => Ok (key_pageup s)
  | PageDown => Ok (key_pagedown s)
  | Space => key_space s
  | Enter => key_enter exec user host port s
  | AnyKey => Ok (key_any s)
  end.

(** The start of [interactive_browse], up to the first listing. *)
Definition start_browser (exec : Exec) (user host : string) (port : Z)
    (start_path : string) : result Browser :=
  es ← get_entries exec user host port start_path;
  Ok (mkBrowser start_path 0 ∅ "" [] [] 0 es).

(** [main] up to the start of the browser. *)
Definition main (exec : Exec) (user host : string) (port : Z)
  : result Browser :=
  _ ← check_and_install_rsync exec user host port;
  home ← get_remote_home exec user host port;
  start_browser exec user host port home.

(** The four cursor keys. *)
Inductive move : Type := MoveUp | MoveDown | MovePageUp | MovePageDown.

Definition key_move (m : move) (s : Browser) : Browser :=
  match m with
  | MoveUp => key_up s
  | MoveDown => key_down s
  | MovePageUp => key_pageup s
  | MovePageDown => key_pagedown s
  end.

(** A browser state as it is right after a listing [es] was installed. *)
Definition fresh_browser (path : string) (es : list Entry.t) : Browser :=
  mkBrowser path 0 ∅ "" [] [] 0 es.

(** ** Quitting *)

(** The two system calls of the [q] handler and what they may raise. *)
Record Os : Type := mkOs {
  getpgid : Z -> result Z;
  killpg : Z -> Z -> result unit
}.

Definition SIGKILL : Z := 9.

(** What the [q] handler does, in order. *)
Inductive action : Type :=
| CallGetpgid (pid : Z)
| CallKillpg (pgid sig : Z)
| AppExit
| OsExit (code : Z).

(** The body of the [try] for one handle, with the calls it makes. *)
Definition kill_group (os : Os) (proc : Popen) : list action * result unit :=
  match getpgid os (pid proc) with
  | Ok pgid => ([CallGetpgid (pid proc); CallKillpg pgid SIGKILL],
                killpg os pgid SIGKILL)
  | Raise e => ([CallGetpgid (pid proc)], Raise e)
  end.

(** One round of the loop of the [q] handler: whatever the [try] raises
    is passed over. *)
Definition try_kill_group (os : Os) (proc : Popen) : list action :=
  match kill_group os proc with
  | (calls, Ok _) => calls
  | (calls, Raise _) => calls
  end.

(** The [q] handler. *)
Definition key_q (os : Os) (s : Browser) : list action :=
  flat_map (try_kill_group os) (active_procs s) ++ [AppExit; OsExit 0].

(** ** Vocabulary of the statements about text *)

Definition no_space (s : string) : Prop :=
  Forall (fun c => Py.is_space c = false) (list_ascii_of_string s).

Definition all_space (s : string) : Prop :=
  Forall (fun c => Py.is_space c = true) (list_ascii_of_string s).


(** [s] starts with a character that is not whitespace. *)
Definition at_field (s : string) : Prop :=
  match s with
  | EmptyString => False
  | String c _ => Py.is_space c = false
  end.



(** ** The listing format, in the words of the specification *)

(** A summary line. *)
Definition is_total (line : string) : bool := Py.startswith "total" line.



Definition first_char (s : string) : string :=
  match s with
  | EmptyString => EmptyString
  | String c _ => String c EmptyString
  end.

(** The entry a line stands for, if any: fields one to eight without the
    link count, the type being the first character of the permissions. *)
Definition line_entry (line : string) : option Entry.t :=
  if is_total line then None
  else
    match Py.split_ws 7 line with
    | [perms; links; user; group; size; date; time; name] =>
        Some (Entry.mk (first_char perms) perms user group size date time name)
    | _ => None
    end.

(** ** Vocabulary of the statements about the listing and the paths *)

(** A listing command fails: its exit status is not zero. *)
Definition ls_fails (exec : Exec) (user host : string) (port : Z)
    (cmd : string) : Prop :=
  returncode (exec (ssh_argv user host port cmd)) <> 0.

(** A name that can stand between two slashes of a path. *)
Definition component (c : string) : Prop :=
  c <> EmptyString
  /\ Forall (fun a => a <> "/"%char) (list_ascii_of_string c).

(** The absolute path with the given components, the root for none. *)
Definition abs_path (comps : list string) : string :=
  "/" +:+ Py.join "/" comps.

(** A remote host on which every command fails. *)
Definition exec_fails : Exec := fun _ => mkCompleted 2 "".

(** ** Runs of the browser and a sample host *)

(** The handlers applied to a sequence of keys, up to the first one that
    raises. *)
Fixpoint run_keys (exec : Exec) (user host : string) (port : Z)
    (keys : list key) (s : Browser) : result Browser :=
  match keys with
  | [] => Ok s
  | k :: rest =>
      s' ← handle_key exec user host port k s;
      run_keys exec user host port rest s'
  end.

Definition run_moves (ms : list move) (s : Browser) : Browser :=
  foldl (fun s m => key_move m s) s ms.

Definition nl : string := String "010" EmptyString.

(** The home directory of the sample host: two directories, one of them
    closed to the user, and a file. *)
Definition home_listing : string :=
  Py.join nl
    ["total 12";
     "drwxr-xr-x 2 u u 4096 2024-01-01 10:00 logs";
     "-rw-r--r-- 1 u u 12 2024-01-01 10:00 a.txt";
     "drwx------ 2 root root 4096 2024-01-01 10:00 secret"] +:+ nl.

(** The sample host: [/home/u] and [/home/u/logs] can be listed with the
    first command, every other command exits with status 2. *)
Definition sample_exec : Exec := fun argv =>
  match argv with
  | [_; _; _; _; cmd] =>
      if bool_decide (cmd = "/bin/ls -lA --time-style=long-iso /home/u")
      then mkCompleted 0 home_listing
      else if bool_decide
                (cmd = "/bin/ls -lA --time-style=long-iso /home/u/logs")
      then mkCompleted 0 ("total 0" +:+ nl)
      else mkCompleted 2 ""
  | _ => mkCompleted 2 ""
  end.

Definition logs_entry : Entry.t :=
  Entry.mk "d" "drwxr-xr-x" "u" "u" "4096" "2024-01-01" "10:00" "logs".
Definition a_txt_entry : Entry.t :=
  Entry.mk "-" "-rw-r--r--" "u" "u" "12" "2024-01-01" "10:00" "a.txt".
Definition secret_entry : Entry.t :=
  Entry.mk "d" "drwx------" "root" "root" "4096" "2024-01-01" "10:00" "secret".

(** ** Vocabulary of the statements about the browser and the engine *)

(** The cursor is on a row, or on row 0 of an empty listing, and the page
    shown contains it. *)
Definition in_window (s : Browser) : Prop :=
  0 <= selected s <= Z.max 0 (len (entries s) - 1)
  /\ 0 <= page_start s
  /\ page_start s <= selected s < page_start s + page_size.



(** The last status message a sequence of callback calls sets. *)
Definition last_message (calls : list callback) : option string :=
  last (omap (fun c => match c with
                       | SetMessage m => Some m
                       | AppendOutput _ => None
                       end) calls).

(** ** Vocabulary of the statements about progress lines *)




(** ** Sample states and processes *)

(** The home directory of the sample host with the cursor on [logs] and
    [logs] marked. *)
Definition home_logs_marked : Browser :=
  mkBrowser "/home/u" 1 (∅ ∪ {["logs"]}) "" [] [] 0
    [dotdot; logs_entry; a_txt_entry; secret_entry].

(** The state after [Enter] in [home_logs_marked]. *)
Definition logs_entered_marked : Browser :=
  mkBrowser "/home/u/logs" 0 (∅ ∪ {["logs"]}) "" [] [] 0 [dotdot].

(** A transfer of one file that ends with the given exit code. *)
Definition sample_popen (rc : Z) : list string -> Process := fun _ =>
  mkProcess (mkPopen 1 4242)
    ["sending incremental file list" +:+ nl;
     "a.txt" +:+ nl;
     "             12 100%    0.00kB/s    0:00:00 (xfr#1, to-chk=0/1)" +:+ nl]
    rc.


(** An operating system where every process is gone. *)
Definition dead_os : Os :=
  mkOs (fun _ => Raise ProcessLookupError) (fun _ _ => Raise ProcessLookupError).

(** A browser with two transfers registered. *)
Definition two_transfers : Browser :=
  mkBrowser "/home/u" 0 ∅ "" [mkPopen 1 4242; mkPopen 2 4250] [] 0 [dotdot].




(** The states the browser can be in: the one [interactive_browse]
    starts with and those the key handlers lead to, against any behaviour
    of the remote host. *)
Inductive reachable (user host : string) (port : Z) : Browser -> Prop :=
| reachable_start exec start_path s :
    start_browser exec user host port start_path = Ok s ->
    reachable user host port s
| reachable_key exec k s s' :
    reachable user host port s ->
    handle_key exec user host port k s = Ok s' ->
    reachable user host port s'.

(** ** Rendering: [get_lines] *)

(** [range(a, b)] *)
Definition range (a b : Z) : list Z := seqZ a (b - a).

(** The body of the loop of [get_lines] for the row [idx]: the style and
    the text of the row. *)
Definition get_line (entries : list Entry.t) (selected : Z)
    (marked : gset string) (idx : Z) : result (string * string) :=
  entry ← Py.index entries idx;
  let t := Entry.ftype entry in
  let n := Entry.name entry in
  let color :=
    if bool_decide (t = "d") then "class:directory"
    else if bool_decide (t = "l") then "class:symlink"
    else "class:file" in
  let prefix := if idx =? selected then "➤ " else "  " in
  let mark := if bool_decide (n ∈ marked) then "[*] " else "    " in
  let style_line :=
    if bool_decide (n ∈ marked) then "class:marked" else color in
  if idx =? selected
  then Ok ("class:selected", prefix +:+ mark +:+ n +:+ nl)
  else Ok (style_line, prefix +:+ mark +:+ n +:+ nl).

Fixpoint get_lines_loop (entries : list Entry.t) (selected : Z)
    (marked : gset string) (idxs : list Z) (lines : list (string * string))
  : result (list (string * string)) :=
  match idxs with
  | [] => Ok lines
  | idx :: rest =>
      l ← get_line entries selected marked idx;
      get_lines_loop entries selected marked rest (lines ++ [l])
  end.

(** [get_lines]; [page_start] is the variable of [interactive_browse] the
    function reads. *)
Definition get_lines (page_start : Z) (entries : list Entry.t)
    (selected : Z) (marked : gset string)
  : result (list (string * string)) :=
  let stop := Z.min (page_start + page_size) (len entries) in
  get_lines_loop entries selected marked (range page_start stop) [].

(** The text [refresh] gives the body of the window in a state. *)
Definition body_text (s : Browser) : result (list (string * string)) :=
  get_lines (page_start s) (entries s) (selected s) (selected_files s).

(** ** The download key *)

(** What a call of one of the two callbacks does to the state. *)
Definition apply_callback (s : Browser) (c : callback) : Browser :=
  match c with
  | SetMessage msg => set_message_threadsafe msg s
  | AppendOutput line => append_output line s
  end.

Definition with_active_procs (procs : list Popen) (s : Browser) : Browser :=
  mkBrowser (cwd s) (selected s) (selected_files s) (message s) procs
    (output_lines s) (page_start s) (entries s).

(** One round of the loop of the [d] handler, for the marked name [n]:
    the command that is launched and the state when the transfer is
    over. *)
Definition download_one (popen : list string -> Process)
    (user host : string) (port : Z) (s : Browser) (n : string)
  : list string * Browser :=
  let remote_path := PosixPath.join (cwd s) n in
  let local_path := "." in
  let follow_symlinks := false in
  let out := rsync_pull popen user host remote_path local_path port
               follow_symlinks (Some (active_procs s)) true in
  let s' := foldl apply_callback s out.1 in
  (rsync_cmd user host remote_path local_path port follow_symlinks,
   with_active_procs (default (active_procs s) out.2) s').

(** The [d] handler, run with no other key handled before it ends:
    [order] is the order in which the set of marks yields its names.  The
    commands launched come back with the state. *)
Definition key_d (popen : list string -> Process) (user host : string)
    (port : Z) (order : list string) (s : Browser)
  : list (list string) * Browser :=
  let run :=
    foldl (fun acc n =>
             let r := download_one popen user host port acc.2 n in
             (acc.1 ++ [r.1], r.2))
          ([], s) order in
  (run.1,
   mkBrowser (cwd run.2) (selected run.2) ∅ (message run.2)
     (active_procs run.2) (output_lines run.2) (page_start run.2)
     (entries run.2)).

(** The output pane after the lines [ls] went through [append_output]. *)
Definition log_lines (ls : list string) (s : Browser) : Browser :=
  foldl (fun s line => append_output line s) s ls.

(** ** Vocabulary of the further statements *)

(** A name of a directory entry as it lies in a normal path: not empty,
    no slash, no whitespace, neither [.] nor [..]. *)
Definition plain_name (c : string) : Prop :=
  component c /\ no_space c /\ c <> "." /\ c <> "..".

(** The lines a call sequence appends to the output pane. *)
Definition appended (calls : list callback) : list string :=
  omap (fun c => match c with
                 | AppendOutput l => Some l
                 | SetMessage _ => None
                 end) calls.

(** The status messages a call sequence sets. *)
Definition messages (calls : list callback) : list string :=
  omap (fun c => match c with
                 | SetMessage m => Some m
                 | AppendOutput _ => None
                 end) calls.

(** The host of the sample with a readable [/home/u/logs] holding one
    file, and the state with the cursor on [logs]. *)
Definition home_on_logs : Browser :=
  mkBrowser "/home/u" 1 ∅ "" [] [] 0
    [dotdot; logs_entry; a_txt_entry; secret_entry].

(** * Properties *)

Example split_ws_demo :
  Py.split_ws 2 "  a   b  c d  " = ["a"; "b"; "c d  "]
  /\ Py.split_ws 7 " a b " = ["a"; "b"]
  /\ Py.split "/" "/a//b" = [""; "a"; ""; "b"]
  /\ Py.strip "  x y
" = "x y"
  /\ Py.str (-5) = "-5" /\ Py.str 0 = "0" /\ Py.str 120 = "120"
  /\ Py.int "0120" = 120
  /\ Py.index [1; 2; 3] (-1) = Ok 3
  /\ Py.index ([] : list Z) 0 = Raise IndexError
  /\ Py.char_at "drwx" 0 = Ok "d"
  /\ PosixPath.normpath "/home//u/./x/../" = "/home/u"
  /\ PosixPath.normpath "//" = "//" /\ PosixPath.normpath "" = "."
  /\ PosixPath.normpath "a/../.." = ".."
  /\ PosixPath.dirname "/home/u" = "/home" /\ PosixPath.dirname "/home" = "/"
  /\ PosixPath.dirname "" = "" /\ PosixPath.dirname "//x" = "//"
  /\ PosixPath.join "/" "x" = "/x" /\ PosixPath.join "/a" "x" = "/a/x".
Proof. repeat split; reflexivity. Qed.

(** ** Strings: splitting on whitespace *)

Lemma cons_head_length c l :
  l <> [] -> length (Py.cons_head c l) = length l.
Proof. destruct l; [congruence | reflexivity]. Qed.

Lemma cons_head_nonempty c l : Py.cons_head c l <> [].
Proof. destruct l; discriminate. Qed.

Lemma split_ws_from_field_nonempty n s : Py.split_ws_from true n s <> [].
Proof.
  destruct s as [|c r]; simpl; [discriminate|].
  destruct (Py.is_space c); [discriminate | apply cons_head_nonempty].
Qed.

(** At most [maxsplit + 1] fields come out of a split. *)
Lemma split_ws_from_length s : forall (b : bool) (n : nat),
  (length (Py.split_ws_from b n s) <= (if b then S (S n) else S n))%nat.
Proof.
  induction s as [|c r IH]; intros b n; simpl.
  - destruct b; simpl; lia.
  - destruct b, (Py.is_space c); simpl.
    + specialize (IH false n). simpl in IH. lia.
    + rewrite cons_head_length by apply split_ws_from_field_nonempty.
      apply (IH true n).
    + specialize (IH false n). simpl in IH. lia.
    + destruct n as [|m]; simpl; [lia|].
      rewrite cons_head_length by apply split_ws_from_field_nonempty.
      specialize (IH true m). simpl in IH. lia.
Qed.

Lemma split_ws_length n s : (length (Py.split_ws n s) <= S n)%nat.
Proof. apply (split_ws_from_length s false n). Qed.

(** Every field of a split is non-empty; inside a field, every field
    after the one being read. *)
Lemma split_ws_from_fields s : forall (b : bool) (n : nat),
  Forall (fun f => f <> EmptyString)
    (if b then tail (Py.split_ws_from b n s) else Py.split_ws_from b n s).
Proof.
  induction s as [|c r IH]; intros b n; simpl.
  - destruct b; simpl; constructor.
  - destruct b, (Py.is_space c); simpl.
    + apply (IH false n).
    + specialize (IH true n). simpl in IH.
      destruct (Py.split_ws_from true n r); simpl in *; [constructor | exact IH].
    + apply (IH false n).
    + destruct n as [|m]; simpl.
      * constructor; [discriminate | constructor].
      * specialize (IH true m). simpl in IH.
        destruct (Py.split_ws_from true m r); simpl in *;
          (constructor; [discriminate | assumption]).
Qed.

Lemma split_ws_fields n s :
  Forall (fun f => f <> EmptyString) (Py.split_ws n s).
Proof. apply (split_ws_from_fields s false n). Qed.








(** ** The [ls] parser *)

Lemma char_at_first c r : Py.char_at (String c r) 0 = Ok (String c EmptyString).
Proof.
  unfold Py.char_at, Py.index. simpl length.
  replace (0 <? 0) with false by reflexivity. cbv zeta.
  replace ((0 <=? 0) && (0 <? Z.of_nat (S (length (list_ascii_of_string r)))))
    with true; [reflexivity|].
  symmetry. apply andb_true_intro. split; [reflexivity|].
  apply Z.ltb_lt. lia.
Qed.

(** The loop body computes [line_entry] and raises nothing. *)
Lemma parse_ls_line_entry line : parse_ls_line line = Ok (line_entry line).
Proof.
  unfold parse_ls_line, line_entry, is_total.
  destruct (Py.startswith "total" line); [reflexivity|].
  pose proof (split_ws_length 7 line) as Hlen.
  pose proof (split_ws_fields 7 line) as Hne.
  destruct (Py.split_ws 7 line) as [|f1 [|f2 [|f3 [|f4 [|f5 [|f6 [|f7 [|f8 [|f9 l]]]]]]]]];
    try reflexivity.
  - inversion Hne as [|? ? Hf1 _]; subst.
    destruct f1 as [|c r]; [congruence|].
    replace (length _ <? 8)%nat with false by reflexivity.
    rewrite char_at_first. reflexivity.
  - simpl in Hlen. lia.
Qed.

Lemma parse_ls_lines_entries lines : forall acc,
  parse_ls_lines lines acc = Ok (acc ++ omap line_entry lines).
Proof.
  induction lines as [|line rest IH]; intros acc; simpl.
  - now rewrite app_nil_r.
  - rewrite parse_ls_line_entry. simpl.
    destruct (line_entry line) as [e|]; rewrite IH; [|reflexivity].
    now rewrite <- app_assoc.
Qed.

Lemma parse_ls_output_entries output :
  parse_ls_output output = Ok (omap line_entry (ls_lines output)).
Proof. unfold parse_ls_output. now rewrite parse_ls_lines_entries. Qed.



Lemma line_entry_type line e :
  line_entry line = Some e ->
  exists c r, Entry.perms e = String c r /\ Entry.ftype e = String c EmptyString.
Proof.
  unfold line_entry. destruct (is_total line); [discriminate|].
  pose proof (split_ws_fields 7 line) as Hne.
  destruct (Py.split_ws 7 line) as [|f1 [|f2 [|f3 [|f4 [|f5 [|f6 [|f7 [|f8 [|f9 l]]]]]]]]];
    try discriminate.
  intros [= <-]. simpl. inversion Hne as [|? ? Hf1 _]; subst.
  destruct f1 as [|c r]; [congruence|]. now exists c, r.
Qed.


(** ** The listing *)

Lemma ls_cmds_order path :
  ls_cmds path =
  ["/bin/ls -lA --time-style=long-iso " +:+ path; "/bin/ls -lA " +:+ path;
   "/usr/bin/ls -lA --time-style=long-iso " +:+ path;
   "/usr/bin/ls -lA " +:+ path;
   "ls -lA --time-style=long-iso " +:+ path; "ls -lA " +:+ path].
Proof. reflexivity. Qed.

Lemma subprocess_run_check exec argv :
  subprocess_run exec true argv =
  if returncode (exec argv) =? 0 then Ok (exec argv)
  else Raise CalledProcessError.
Proof.
  unfold subprocess_run. simpl. now destruct (returncode (exec argv) =? 0).
Qed.

(** When every command fails, every command is run and nothing is found. *)
Lemma run_ls_cmds_all_fail exec user host port cmds :
  Forall (ls_fails exec user host port) cmds ->
  run_ls_cmds exec user host port cmds
  = (ssh_argv user host port <$> cmds, Ok None).
Proof.
  induction 1 as [|cmd rest Hc _ IH]; simpl; [reflexivity|].
  rewrite subprocess_run_check.
  destruct (Z.eqb_spec (returncode (exec (ssh_argv user host port cmd))) 0)
    as [E|_]; [contradiction|].
  now rewrite IH.
Qed.

(** The loop stops at the first command that succeeds. *)
Lemma run_ls_cmds_first exec user host port pre cmd post :
  Forall (ls_fails exec user host port) pre ->
  returncode (exec (ssh_argv user host port cmd)) = 0 ->
  run_ls_cmds exec user host port (pre ++ cmd :: post)
  = (ssh_argv user host port <$> (pre ++ [cmd]),
     Ok (Some (exec (ssh_argv user host port cmd)))).
Proof.
  intros Hpre Hc. induction Hpre as [|c rest Hf _ IH]; simpl.
  - rewrite subprocess_run_check, Hc. reflexivity.
  - rewrite subprocess_run_check.
    destruct (Z.eqb_spec (returncode (exec (ssh_argv user host port c))) 0)
      as [E|_]; [contradiction|].
    now rewrite IH.
Qed.

(** Either all commands fail or there is a first one that succeeds. *)
Lemma ls_first_success exec user host port cmds :
  Forall (ls_fails exec user host port) cmds
  \/ exists pre cmd post,
       cmds = pre ++ cmd :: post
       /\ Forall (ls_fails exec user host port) pre
       /\ returncode (exec (ssh_argv user host port cmd)) = 0.
Proof.
  induction cmds as [|c rest IH]; [left; constructor|].
  destruct (Z.eq_dec (returncode (exec (ssh_argv user host port c))) 0)
    as [E|E].
  - right. exists [], c, rest. repeat split; [constructor | assumption].
  - destruct IH as [IH|(pre & cmd & post & -> & Hpre & Hc)].
    + left. now constructor.
    + right. exists (c :: pre), cmd, post. repeat split; [|assumption].
      now constructor.
Qed.

Lemma get_entries_all_fail exec user host port path :
  Forall (ls_fails exec user host port) (ls_cmds path) ->
  get_entries exec user host port path = Ok [].
Proof.
  intros H. unfold get_entries. now rewrite run_ls_cmds_all_fail.
Qed.

Lemma get_entries_first exec user host port path pre cmd post :
  ls_cmds path = pre ++ cmd :: post ->
  Forall (ls_fails exec user host port) pre ->
  returncode (exec (ssh_argv user host port cmd)) = 0 ->
  get_entries exec user host port path
  = Ok ((if bool_decide (path = "/") then [] else [dotdot])
        ++ omap line_entry
             (ls_lines (stdout (exec (ssh_argv user host port cmd))))).
Proof.
  intros E Hpre Hc. unfold get_entries.
  rewrite E, run_ls_cmds_first by assumption. simpl.
  rewrite parse_ls_output_entries. simpl.
  now destruct (bool_decide (path = "/")).
Qed.

(** The listing raises nothing. *)
Lemma get_entries_total exec user host port path :
  exists es, get_entries exec user host port path = Ok es.
Proof.
  destruct (ls_first_success exec user host port (ls_cmds path))
    as [H|(pre & cmd & post & E & Hpre & Hc)].
  - eexists. now apply get_entries_all_fail.
  - eexists. now apply (get_entries_first _ _ _ _ _ pre cmd post).
Qed.

(** ** Paths *)

Lemma append_cons x (a b : string) : String x a +:+ b = String x (a +:+ b).
Proof. reflexivity. Qed.

Lemma append_nil_l (a : string) : "" +:+ a = a.
Proof. reflexivity. Qed.

Lemma append_assoc (a b c : string) : (a +:+ b) +:+ c = a +:+ b +:+ c.
Proof.
  induction a as [|x a IH]; [reflexivity|].
  now rewrite !append_cons, IH.
Qed.


Lemma is_empty_app_cons a c b : Py.is_empty (a +:+ String c b) = false.
Proof. now destruct a. Qed.

Lemma join_snoc sep cs c :
  cs <> [] -> Py.join sep (cs ++ [c]) = Py.join sep cs +:+ sep +:+ c.
Proof.
  induction cs as [|x [|y cs] IH]; intros H; [congruence | reflexivity |].
  change (Py.join sep ((x :: y :: cs) ++ [c]))
    with (x +:+ sep +:+ Py.join sep ((y :: cs) ++ [c])).
  rewrite IH by discriminate.
  change (Py.join sep (x :: y :: cs)) with (x +:+ sep +:+ Py.join sep (y :: cs)).
  now rewrite !append_assoc.
Qed.


Lemma component_cons c :
  component c ->
  exists a r, c = String a r /\ a <> "/"%char
              /\ Forall (fun x => x <> "/"%char) (list_ascii_of_string r).
Proof.
  intros [Hne Hall]. destruct c as [|a r]; [congruence|].
  inversion Hall; subst. now exists a, r.
Qed.

Lemma eqb_slash_false a : a <> "/"%char -> Ascii.eqb a "/" = false.
Proof. intros H. now apply Ascii.eqb_neq. Qed.

(** A name ends with a character that is no slash, and so does any text
    followed by a name. *)
Lemma endswith_slash_tail r :
  Forall (fun x => x <> "/"%char) (list_ascii_of_string r) ->
  forall a, a <> "/"%char -> Py.endswith_char "/" (String a r) = false.
Proof.
  induction r as [|b r IH]; intros Hall a Ha; simpl.
  - now apply eqb_slash_false.
  - inversion Hall; subst. now apply IH.
Qed.

Lemma endswith_slash_component c :
  component c -> Py.endswith_char "/" c = false.
Proof.
  intros H. destruct (component_cons c H) as (a & r & -> & Ha & Hr).
  now apply endswith_slash_tail.
Qed.

Lemma endswith_char_app x s c :
  c <> EmptyString ->
  Py.endswith_char x (s +:+ c) = Py.endswith_char x c.
Proof.
  intros Hc. induction s as [|a s IH]; [reflexivity|].
  rewrite append_cons. simpl.
  destruct (s +:+ c) eqn:E; [|exact IH].
  destruct s; [change (c = EmptyString) in E; congruence | discriminate].
Qed.

(** [rstrip('/')] leaves a text that does not end with a slash alone. *)
Lemma rstrip_char_clean x s :
  Py.endswith_char x s = false -> Py.rstrip_char x s = s.
Proof.
  induction s as [|a s IH]; [reflexivity|]. simpl. intros H.
  destruct s as [|b s].
  - simpl. now rewrite H.
  - rewrite IH by exact H. simpl. now rewrite andb_false_r.
Qed.

(** [rstrip('/')] takes one trailing slash off such a text. *)
Lemma rstrip_char_one x s :
  s <> EmptyString -> Py.endswith_char x s = false ->
  Py.rstrip_char x (s +:+ String x "") = s.
Proof.
  induction s as [|a s IH]; intros Hne H; [congruence|].
  rewrite append_cons. simpl. destruct s as [|b s].
  - simpl in *. rewrite Ascii.eqb_refl. simpl. now rewrite H.
  - rewrite IH; [|discriminate|exact H]. simpl. now rewrite andb_false_r.
Qed.

Lemma head_of_name r :
  Forall (fun x => x <> "/"%char) (list_ascii_of_string r) ->
  PosixPath.head_of r = EmptyString.
Proof.
  induction r as [|a r IH]; intros Hall; [reflexivity|].
  inversion Hall; subst. simpl. rewrite IH by assumption. simpl.
  now rewrite eqb_slash_false.
Qed.

(** The head of [s/c] is [s/]. *)
Lemma head_of_app s c :
  Forall (fun x => x <> "/"%char) (list_ascii_of_string c) ->
  PosixPath.head_of (s +:+ String "/" c) = s +:+ "/".
Proof.
  intros Hc. induction s as [|a s IH].
  - simpl. now rewrite head_of_name.
  - rewrite !append_cons. simpl. rewrite IH.
    now rewrite is_empty_app_cons.
Qed.

Lemma all_slashes_app a b :
  PosixPath.all_slashes (a +:+ b)
  = PosixPath.all_slashes a && PosixPath.all_slashes b.
Proof.
  induction a as [|x a IH]; [reflexivity|].
  rewrite append_cons. simpl. rewrite IH. now rewrite andb_assoc.
Qed.

Lemma all_slashes_component c : component c -> PosixPath.all_slashes c = false.
Proof.
  intros H. destruct (component_cons c H) as (a & r & -> & Ha & _).
  simpl. now rewrite eqb_slash_false.
Qed.

Lemma join_components_head cs :
  cs <> [] -> Forall component cs ->
  PosixPath.all_slashes (Py.join "/" cs) = false
  /\ Py.endswith_char "/" (Py.join "/" cs) = false
  /\ Py.join "/" cs <> EmptyString.
Proof.
  induction cs as [|c [|d cs] IH]; intros Hne Hall; [congruence| |].
  - inversion Hall; subst. simpl. repeat split.
    + now apply all_slashes_component.
    + now apply endswith_slash_component.
    + now destruct H1.
  - inversion Hall as [|? ? Hc Hrest]; subst.
    destruct (IH ltac:(discriminate) Hrest) as (_ & He & Hn).
    change (Py.join "/" (c :: d :: cs))
      with (c +:+ "/" +:+ Py.join "/" (d :: cs)).
    repeat split.
    + rewrite all_slashes_app, all_slashes_component by assumption.
      reflexivity.
    + rewrite <- append_assoc, endswith_char_app by assumption. exact He.
    + destruct (component_cons c Hc) as (a & r & -> & _). discriminate.
Qed.

(** Going up from [/c1/.../cn/c] leads to [/c1/.../cn], from the root to
    the root. *)
Lemma parent_dir_abs_path cs c :
  Forall component cs -> component c ->
  parent_dir (abs_path (cs ++ [c])) = abs_path cs.
Proof.
  intros Hcs Hc. unfold parent_dir, abs_path.
  destruct (component_cons c Hc) as (a & r & Ec & Ha & Hr).
  assert (Forall (fun x => x <> "/"%char) (list_ascii_of_string c)) as Hc'
    by apply Hc.
  destruct cs as [|d cs].
  - simpl Py.join. rewrite rstrip_char_clean.
    2:{ rewrite endswith_char_app by apply Hc.
        now apply endswith_slash_component. }
    unfold PosixPath.dirname.
    change ("/" +:+ c) with ("" +:+ String "/" c).
    rewrite head_of_app by assumption. reflexivity.
  - destruct (join_components_head (d :: cs) ltac:(discriminate) Hcs)
      as (Hs & He & Hn).
    rewrite join_snoc by discriminate.
    set (J := Py.join "/" (d :: cs)) in *.
    rewrite rstrip_char_clean.
    2:{ rewrite <- !append_assoc, endswith_char_app by apply Hc.
        now apply endswith_slash_component. }
    unfold PosixPath.dirname.
    replace ("/" +:+ J +:+ "/" +:+ c) with (("/" +:+ J) +:+ String "/" c)
      by now rewrite append_assoc.
    rewrite head_of_app by assumption.
    assert (PosixPath.all_slashes (("/" +:+ J) +:+ "/") = false) as Hs'.
    { rewrite all_slashes_app. change ("/" +:+ J) with (String "/" J).
      simpl. now rewrite Hs. }
    assert (Py.endswith_char "/" ("/" +:+ J) = false) as He'.
    { rewrite endswith_char_app by assumption. exact He. }
    rewrite is_empty_app_cons, Hs'. simpl negb. simpl andb. cbv iota.
    rewrite rstrip_char_one by (discriminate || exact He'). reflexivity.
Qed.

Lemma parent_dir_root : parent_dir "/" = "/".
Proof. reflexivity. Qed.

(** Entering the directory [c] of [/c1/.../cn] leads to [/c1/.../cn/c]. *)
Lemma join_abs_path cs c :
  Forall component cs -> component c ->
  PosixPath.join (abs_path cs) c = abs_path (cs ++ [c]).
Proof.
  intros Hcs Hc. unfold PosixPath.join, abs_path.
  destruct (component_cons c Hc) as (a & r & -> & Ha & Hr).
  change (Py.startswith "/" (String a r)) with (Ascii.eqb "/" a && true).
  rewrite Ascii.eqb_sym, eqb_slash_false by assumption.
  simpl andb. cbv iota.
  destruct cs as [|d cs]; [reflexivity|].
  destruct (join_components_head (d :: cs) ltac:(discriminate) Hcs)
    as (_ & He & Hn).
  rewrite endswith_char_app by assumption. rewrite He. simpl orb. cbv iota.
  rewrite join_snoc by discriminate. now rewrite !append_assoc.
Qed.

(** ** The sample host *)

Example sample_home :
  get_entries sample_exec "u" "example" 22 "/home/u"
  = Ok [dotdot; logs_entry; a_txt_entry; secret_entry].
Proof. vm_compute. reflexivity. Qed.

Example sample_secret :
  get_entries sample_exec "u" "example" 22 "/home/u/secret" = Ok [].
Proof. vm_compute. reflexivity. Qed.

Example sample_run :
  run_keys sample_exec "u" "example" 22 [Down; Down; Down; Enter]
    (fresh_browser "/home/u" [dotdot; logs_entry; a_txt_entry; secret_entry])
  = Ok (fresh_browser "/home/u/secret" []).
Proof. vm_compute. reflexivity. Qed.

(** ** The cursor keys *)

Ltac case_tests :=
  repeat match goal with
         | |- context [?a <? ?b] => destruct (Z.ltb_spec a b)
         | |- context [?a <=? ?b] => destruct (Z.leb_spec a b)
         end.

Lemma key_move_in_window m s :
  in_window s ->
  in_window (key_move m s) /\ entries (key_move m s) = entries s.
Proof.
  unfold in_window, page_size. intros H.
  destruct m; simpl;
    unfold key_up, key_down, key_pageup, key_pagedown, page_size;
    case_tests; simpl; split; try reflexivity; lia.
Qed.

Lemma run_moves_in_window ms : forall s,
  in_window s ->
  in_window (run_moves ms s) /\ entries (run_moves ms s) = entries s.
Proof.
  induction ms as [|m ms IH]; intros s H; [now split|].
  destruct (key_move_in_window m s H) as [H1 E1].
  destruct (IH (key_move m s) H1) as [H2 E2].
  split; [exact H2 | now rewrite <- E1].
Qed.

Lemma fresh_browser_in_window path es : in_window (fresh_browser path es).
Proof. unfold in_window, page_size, len. simpl. lia. Qed.

(** ** Entering a directory, marking a row *)

Lemma update_entries_ok exec user host port s :
  exists es,
    get_entries exec user host port (cwd s) = Ok es
    /\ update_entries exec user host port s
       = Ok (mkBrowser (cwd s) 0 (selected_files s) (message s)
               (active_procs s) (output_lines s) 0 es).
Proof.
  destruct (get_entries_total exec user host port (cwd s)) as [es E].
  exists es. split; [exact E|]. unfold update_entries. now rewrite E.
Qed.

(** [Enter] on the parent row or on a directory: the path changes, the
    listing of the new path is installed, cursor and page go back to the
    top, the marks stay as they are. *)
Lemma key_enter_changes_dir exec user host port s e :
  Py.index (entries s) (selected s) = Ok e ->
  Entry.name e = ".." \/ Entry.ftype e = "d" ->
  exists s',
    key_enter exec user host port s = Ok s'
    /\ cwd s' = (if bool_decide (Entry.name e = "..") then parent_dir (cwd s)
                 else PosixPath.join (cwd s) (Entry.name e))
    /\ get_entries exec user host port (cwd s') = Ok (entries s')
    /\ selected s' = 0 /\ page_start s' = 0
    /\ selected_files s' = selected_files s.
Proof.
  intros He Hk. unfold key_enter. rewrite He. simpl.
  destruct (bool_decide (Entry.name e = "..")) eqn:Hn.
  - destruct (update_entries_ok exec user host port
                (with_cwd (parent_dir (cwd s)) s)) as (es & Hes & ->).
    simpl. eexists. split; [reflexivity|]. simpl. repeat split. exact Hes.
  - assert (Entry.ftype e = "d") as Hd.
    { destruct Hk as [Hk|Hk]; [|exact Hk].
      apply bool_decide_eq_false in Hn. contradiction. }
    rewrite (bool_decide_eq_true_2 _ Hd).
    destruct (update_entries_ok exec user host port
                (with_cwd (PosixPath.join (cwd s) (Entry.name e)) s))
      as (es & Hes & ->).
    simpl. eexists. split; [reflexivity|]. simpl. repeat split. exact Hes.
Qed.

(** [Enter] on anything else changes nothing. *)
Lemma key_enter_file exec user host port s e :
  Py.index (entries s) (selected s) = Ok e ->
  Entry.name e <> ".." -> Entry.ftype e <> "d" ->
  key_enter exec user host port s = Ok s.
Proof.
  intros He Hn Hd. unfold key_enter. rewrite He. simpl.
  now rewrite (bool_decide_eq_false_2 _ Hn), (bool_decide_eq_false_2 _ Hd).
Qed.

Lemma index_empty {A : Type} (i : Z) : Py.index ([] : list A) i = Raise IndexError.
Proof.
  assert (forall j, (0 <=? j) && (j <? 0) = false) as E.
  { intros j. destruct (Z.leb_spec 0 j), (Z.ltb_spec j 0);
      try reflexivity; lia. }
  unfold Py.index. simpl length. cbv zeta.
  now rewrite E.
Qed.

Lemma index_in_range {A : Type} (l : list A) (i : Z) :
  0 <= i < len l -> exists x, Py.index l i = Ok x /\ l !! Z.to_nat i = Some x.
Proof.
  unfold len. intros H. unfold Py.index.
  destruct (Z.ltb_spec i 0); [lia|]. cbv zeta.
  destruct (Z.leb_spec 0 i); [|lia].
  destruct (Z.ltb_spec i (Z.of_nat (length l))); [|lia]. simpl.
  destruct (lookup_lt_is_Some_2 l (Z.to_nat i)) as [x Hx]; [lia|].
  rewrite Hx. now exists x.
Qed.

(** With no rows, marking and entering raise. *)
Lemma key_space_empty s : entries s = [] -> key_space s = Raise IndexError.
Proof. intros E. unfold key_space. now rewrite E, index_empty. Qed.

Lemma key_enter_empty exec user host port s :
  entries s = [] -> key_enter exec user host port s = Raise IndexError.
Proof. intros E. unfold key_enter. now rewrite E, index_empty. Qed.

(** With the cursor on a row, no key raises. *)
Lemma handle_key_on_row exec user host port k s :
  0 <= selected s < len (entries s) ->
  exists s', handle_key exec user host port k s = Ok s'.
Proof.
  intros H. destruct (index_in_range _ _ H) as (e & He & _).
  destruct k; simpl; try (eexists; reflexivity).
  - unfold key_space. rewrite He. simpl. eexists; reflexivity.
  - destruct (decide (Entry.name e = "..")) as [Hn|Hn].
    + destruct (key_enter_changes_dir exec user host port s e He (or_introl Hn))
        as (s' & -> & _). now exists s'.
    + destruct (decide (Entry.ftype e = "d")) as [Hd|Hd].
      * destruct (key_enter_changes_dir exec user host port s e He (or_intror Hd))
          as (s' & -> & _). now exists s'.
      * rewrite (key_enter_file _ _ _ _ _ e) by assumption. now exists s.
Qed.

(** The keys keep the cursor on the page. *)
Lemma handle_key_in_window exec user host port k s s' :
  in_window s -> handle_key exec user host port k s = Ok s' -> in_window s'.
Proof.
  intros Hw H. destruct k; simpl in H.
  - injection H as <-. apply (key_move_in_window MoveUp s Hw).
  - injection H as <-. apply (key_move_in_window MoveDown s Hw).
  - injection H as <-. apply (key_move_in_window MovePageUp s Hw).
  - injection H as <-. apply (key_move_in_window MovePageDown s Hw).
  - unfold key_space in H.
    destruct (Py.index (entries s) (selected s)); [|discriminate].
    simpl in H. injection H as <-. exact Hw.
  - unfold key_enter in H.
    destruct (Py.index (entries s) (selected s)) as [e|] eqn:He;
      [|discriminate].
    destruct (decide (Entry.name e = "..")) as [Hn|Hn].
    + destruct (key_enter_changes_dir exec user host port s e He
                  (or_introl Hn)) as (s1 & H1 & _ & _ & Hs & Hp & _).
      unfold key_enter in H1. rewrite He in H1. rewrite H1 in H.
      injection H as <-. unfold in_window, page_size, len.
      rewrite Hs, Hp. lia.
    + destruct (decide (Entry.ftype e = "d")) as [Hd|Hd].
      * destruct (key_enter_changes_dir exec user host port s e He
                    (or_intror Hd)) as (s1 & H1 & _ & _ & Hs & Hp & _).
        unfold key_enter in H1. rewrite He in H1. rewrite H1 in H.
        injection H as <-. unfold in_window, page_size, len.
        rewrite Hs, Hp. lia.
      * pose proof (key_enter_file exec user host port s e He Hn Hd) as H1.
        unfold key_enter in H1. rewrite He in H1. rewrite H1 in H.
        injection H as <-. exact Hw.
  - injection H as <-. unfold key_any.
    destruct (negb _); exact Hw.
Qed.

Lemma reachable_in_window user host port s :
  reachable user host port s -> in_window s.
Proof.
  induction 1 as [exec start_path s H|exec k s s' _ IH H].
  - unfold start_browser in H.
    destruct (get_entries exec user host port start_path) as [es|];
      [|discriminate].
    simpl in H. injection H as <-. apply fresh_browser_in_window.
  - exact (handle_key_in_window _ _ _ _ _ _ _ IH H).
Qed.

(** A key raises exactly when it is the mark key or [Enter] and the
    listing is empty. *)
Lemma handle_key_raises exec user host port k s :
  in_window s ->
  (exists e, handle_key exec user host port k s = Raise e)
  <-> entries s = [] /\ (k = Space \/ k = Enter).
Proof.
  intros Hw. split.
  - intros [e He]. destruct (entries s) as [|x l] eqn:E.
    + split; [reflexivity|].
      destruct k; simpl in He; try discriminate; auto.
    + exfalso.
      destruct (handle_key_on_row exec user host port k s) as [s' Hs'].
      * destruct Hw as (H1 & _). rewrite E in *. unfold len in *.
        simpl length in *. lia.
      * congruence.
  - intros [E [->| ->]]; exists IndexError; simpl.
    + now apply key_space_empty.
    + now apply key_enter_empty.
Qed.

(** ** The end of a transfer *)

Lemma list_remove_absent {A : Type} `{EqDecision A} (x : A) (l : list A) :
  x ∉ l -> list_remove x l = Raise ValueError.
Proof.
  induction l as [|y l IH]; intros H; simpl; [reflexivity|].
  apply not_elem_of_cons in H as [Hxy Hl].
  destruct (decide (y = x)); [congruence|]. now rewrite IH.
Qed.

Lemma list_remove_fresh {A : Type} `{EqDecision A} (x : A) (l : list A) :
  x ∉ l -> list_remove x (l ++ [x]) = Ok l.
Proof.
  induction l as [|y l IH]; intros H; simpl.
  - now rewrite decide_True.
  - apply not_elem_of_cons in H as [Hxy Hl].
    destruct (decide (y = x)); [congruence|]. now rewrite IH.
Qed.

Lemma last_message_app calls m :
  last_message (calls ++ [SetMessage m]) = Some m.
Proof.
  unfold last_message. rewrite omap_app. simpl. apply last_snoc.
Qed.

Lemma rsync_finish_message active proc rc :
  (rsync_finish active proc rc).1
  = [SetMessage (if rc =? 0 then msg_complete else msg_failed)].
Proof. unfold rsync_finish. simpl. now destruct (rc =? 0). Qed.

(** ** Quitting *)






(** ** The progress pattern *)










Lemma is_empty_true s : Py.is_empty s = true -> s = EmptyString.
Proof. destruct s; [reflexivity | discriminate]. Qed.
















(** ** Normal paths *)





(** * The statements of the specification *)

(** ** Browser state *)





(** C6: from the state a listing leaves (cursor 0, page start 0), after
    any sequence of the four cursor keys the cursor is between 0 and
    [max 0 (len entries - 1)] and lies on the page shown, whatever the
    number of entries; the entries are untouched. *)
Theorem cursor_stays_on_page path es ms :
  let s := run_moves ms (fresh_browser path es) in
  0 <= selected s <= Z.max 0 (len es - 1)
  /\ page_start s <= selected s < page_start s + page_size
  /\ entries s = es.
Proof.
  destruct (run_moves_in_window ms _ (fresh_browser_in_window path es))
    as [(H1 & _ & H2) E].
  cbv zeta. rewrite E in H1. simpl in *. auto.
Qed.

(** ** The listing *)



(** C8: the listing runs its six commands in order, stops at the first
    one that exits with status 0, and raises nothing: when every command
    fails, all six have been run and the result is the empty list. *)
Theorem get_entries_fails_soft exec user host port path :
  (exists es, get_entries exec user host port path = Ok es)
  /\ ls_cmds path =
     ["/bin/ls -lA --time-style=long-iso " +:+ path; "/bin/ls -lA " +:+ path;
      "/usr/bin/ls -lA --time-style=long-iso " +:+ path;
      "/usr/bin/ls -lA " +:+ path;
      "ls -lA --time-style=long-iso " +:+ path; "ls -lA " +:+ path]
  /\ (Forall (ls_fails exec user host port) (ls_cmds path) ->
      get_entries exec user host port path = Ok []
      /\ (run_ls_cmds exec user host port (ls_cmds path)).1
         = ssh_argv user host port <$> ls_cmds path)
  /\ (forall pre cmd post,
        ls_cmds path = pre ++ cmd :: post ->
        Forall (ls_fails exec user host port) pre ->
        returncode (exec (ssh_argv user host port cmd)) = 0 ->
        (run_ls_cmds exec user host port (ls_cmds path)).1
        = ssh_argv user host port <$> (pre ++ [cmd])
        /\ get_entries exec user host port path
           = Ok ((if bool_decide (path = "/") then [] else [dotdot])
                 ++ omap line_entry
                      (ls_lines
                         (stdout (exec (ssh_argv user host port cmd)))))).
Proof.
  split; [apply get_entries_total|].
  split; [apply ls_cmds_order|]. split.
  - intros H. split; [now apply get_entries_all_fail|].
    now rewrite run_ls_cmds_all_fail.
  - intros pre cmd post E Hpre Hc. split.
    + now rewrite E, run_ls_cmds_first.
    + now apply (get_entries_first _ _ _ _ _ pre cmd post).
Qed.

Lemma get_entries_fails_soft_witness :
  get_entries exec_fails "u" "example" 22 "/srv" = Ok []
  /\ (run_ls_cmds exec_fails "u" "example" 22 (ls_cmds "/srv")).1
     = ssh_argv "u" "example" 22 <$> ls_cmds "/srv".
Proof.
  apply (get_entries_fails_soft exec_fails "u" "example" 22 "/srv").
  repeat constructor; discriminate.
Defined.






(** ** The transfer engine *)



(** C3: the last status a transfer sets is the message for a complete
    transfer when the tool exits with code 0 and the message for a failed
    one for every other exit code; the handle, put on the list of live
    handles at the launch, is off the list at the end in both cases, and
    taking a handle off a list that does not hold it raises nothing and
    leaves the list as it is. *)
Theorem rsync_pull_terminal_status popen user host remote_path local_path
    port follow_symlinks (active : list Popen) (append : bool) :
  let p := popen (rsync_cmd user host remote_path local_path port
                    follow_symlinks) in
  let out := rsync_pull popen user host remote_path local_path port
               follow_symlinks (Some active) append in
  (proc_rc p = 0 -> last_message out.1 = Some msg_complete)
  /\ (proc_rc p <> 0 -> last_message out.1 = Some msg_failed)
  /\ rsync_register (Some active) (handle p) = Some (active ++ [handle p])
  /\ (handle p ∉ active -> out.2 = Some active)
  /\ (forall l rc,
        handle p ∉ l ->
        rsync_finish (Some l) (handle p) rc
        = ([SetMessage (if rc =? 0 then msg_complete else msg_failed)],
           Some l)).
Proof.
  cbv zeta. unfold rsync_pull.
  set (p := popen _).
  destruct (rsync_finish (rsync_register (Some active) (handle p))
              (handle p) (proc_rc p)) as [lst act] eqn:E.
  pose proof (rsync_finish_message
                (rsync_register (Some active) (handle p)) (handle p)
                (proc_rc p)) as Hm.
  rewrite E in Hm. simpl in Hm. subst lst. simpl fst. simpl snd.
  split; [|split; [|split; [|split]]].
  - intros H. rewrite last_message_app, H. reflexivity.
  - intros H. rewrite last_message_app.
    destruct (Z.eqb_spec (proc_rc p) 0); [contradiction | reflexivity].
  - reflexivity.
  - intros H. unfold rsync_finish, rsync_register in E.
    rewrite (list_remove_fresh _ _ H) in E. simpl in E.
    injection E as _ <-. reflexivity.
  - intros l rc H. unfold rsync_finish.
    rewrite (list_remove_absent _ _ H). now destruct (rc =? 0).
Qed.

Lemma rsync_pull_terminal_status_witness :
  last_message
    (rsync_pull (sample_popen 0) "u" "example" "/home/u/a.txt" "." 22 false
       (Some []) true).1 = Some msg_complete
  /\ last_message
       (rsync_pull (sample_popen 1) "u" "example" "/home/u/a.txt" "." 22
          false (Some []) true).1 = Some msg_failed
  /\ (rsync_pull (sample_popen 1) "u" "example" "/home/u/a.txt" "." 22
        false (Some []) true).2 = Some [].
Proof.
  split; [|split].
  - apply (rsync_pull_terminal_status (sample_popen 0) "u" "example"
             "/home/u/a.txt" "." 22 false [] true).
    reflexivity.
  - apply (rsync_pull_terminal_status (sample_popen 1) "u" "example"
             "/home/u/a.txt" "." 22 false [] true).
    discriminate.
  - apply (rsync_pull_terminal_status (sample_popen 1) "u" "example"
             "/home/u/a.txt" "." 22 false [] true).
    apply not_elem_of_nil.
Defined.



Example quit_with_dead_processes :
  key_q dead_os two_transfers
  = [CallGetpgid 4242; CallGetpgid 4250; AppExit; OsExit 0].
Proof. reflexivity. Qed.

(** * Further properties of the code *)

(** ** Marks *)

(** X1: with the cursor on a row, the mark key pressed twice gives back
    the state it started from; pressed once it flips the mark of the name
    under the cursor and of no other name. *)
Theorem toggle_mark_twice s e :
  Py.index (entries s) (selected s) = Ok e ->
  exists s1,
    key_space s = Ok s1
    /\ key_space s1 = Ok s
    /\ (Entry.name e ∈ selected_files s1 <-> Entry.name e ∉ selected_files s)
    /\ (forall n, n <> Entry.name e ->
                  n ∈ selected_files s1 <-> n ∈ selected_files s).
Proof.
  intros He. unfold key_space. rewrite He. simpl.
  eexists. split; [reflexivity|]. simpl. rewrite He. simpl.
  destruct s as [c sel marks msg procs out start es]. simpl in *.
  destruct (decide (Entry.name e ∈ marks)) as [Hin|Hin].
  - rewrite (bool_decide_eq_true_2 _ Hin).
    rewrite bool_decide_eq_false_2
      by (rewrite elem_of_difference, elem_of_singleton; tauto).
    split; [|split].
    + do 2 f_equal. apply set_eq. intros x.
      rewrite elem_of_union, elem_of_difference, elem_of_singleton.
      destruct (decide (x = Entry.name e)) as [->|]; tauto.
    + rewrite elem_of_difference, elem_of_singleton. tauto.
    + intros n Hn. rewrite elem_of_difference, elem_of_singleton. tauto.
  - rewrite (bool_decide_eq_false_2 _ Hin).
    rewrite bool_decide_eq_true_2
      by (rewrite elem_of_union, elem_of_singleton; tauto).
    split; [|split].
    + do 2 f_equal. apply set_eq. intros x.
      rewrite elem_of_difference, elem_of_union, elem_of_singleton.
      split; [tauto|]. intros Hx. split; [tauto|]. congruence.
    + rewrite elem_of_union, elem_of_singleton. tauto.
    + intros n Hn. rewrite elem_of_union, elem_of_singleton. tauto.
Qed.

Lemma toggle_mark_twice_witness :
  exists s1,
    key_space home_on_logs = Ok s1
    /\ key_space s1 = Ok home_on_logs
    /\ ("logs" ∈ selected_files s1 <-> "logs" ∉ selected_files home_on_logs)
    /\ (forall n, n <> "logs" ->
                  n ∈ selected_files s1 <-> n ∈ selected_files home_on_logs).
Proof.
  apply (toggle_mark_twice home_on_logs logs_entry).
  vm_compute. reflexivity.
Defined.

(** ** Reachable states *)

Lemma home_on_logs_reachable : reachable "u" "example" 22 home_on_logs.
Proof.
  apply (reachable_key "u" "example" 22 sample_exec Down
           (fresh_browser "/home/u"
              [dotdot; logs_entry; a_txt_entry; secret_entry])).
  - apply (reachable_start "u" "example" 22 sample_exec "/home/u").
    vm_compute. reflexivity.
  - vm_compute. reflexivity.
Qed.

(** X2: in every state the browser can reach, by any keys and whatever
    the host answers, the cursor is between 0 and [max 0 (len entries - 1)],
    the page start is not negative and the cursor lies on the page
    shown. *)
Theorem reachable_cursor_on_page user host port s :
  reachable user host port s ->
  0 <= selected s <= Z.max 0 (len (entries s) - 1)
  /\ 0 <= page_start s
  /\ page_start s <= selected s < page_start s + page_size.
Proof. intros H. exact (reachable_in_window user host port s H). Qed.

Lemma reachable_cursor_on_page_witness :
  0 <= selected home_on_logs <= Z.max 0 (len (entries home_on_logs) - 1)
  /\ 0 <= page_start home_on_logs
  /\ page_start home_on_logs <= selected home_on_logs
     < page_start home_on_logs + page_size.
Proof.
  apply (reachable_cursor_on_page "u" "example" 22 home_on_logs).
  exact home_on_logs_reachable.
Defined.

(** X3: in a reachable state a key handler raises exactly when the
    listing is empty and the key is the mark key or [Enter]; what it
    raises is [IndexError].  The cursor keys and the key that clears the
    message never raise. *)
Theorem keys_raise_only_on_empty_listing exec user host port k s :
  reachable user host port s ->
  (handle_key exec user host port k s = Raise IndexError
   <-> entries s = [] /\ (k = Space \/ k = Enter))
  /\ (forall e, handle_key exec user host port k s = Raise e ->
                e = IndexError).
Proof.
  intros Hr. pose proof (reachable_in_window _ _ _ _ Hr) as Hw.
  pose proof (handle_key_raises exec user host port k s Hw) as [H1 H2].
  assert (forall e, handle_key exec user host port k s = Raise e ->
                    e = IndexError) as He.
  { intros e He. destruct (H1 (ex_intro _ e He)) as [E [->| ->]];
      simpl in He.
    - rewrite (key_space_empty s E) in He. congruence.
    - rewrite (key_enter_empty exec user host port s E) in He. congruence. }
  split; [|exact He]. split.
  - intros H. apply H1. now exists IndexError.
  - intros H. destruct (H2 H) as [e He']. now rewrite He', (He e He').
Qed.

Lemma keys_raise_only_on_empty_listing_witness :
  (handle_key sample_exec "u" "example" 22 Space home_on_logs
   = Raise IndexError
   <-> entries home_on_logs = [] /\ (Space = Space \/ Space = Enter))
  /\ (forall e, handle_key sample_exec "u" "example" 22 Space home_on_logs
                = Raise e -> e = IndexError).
Proof.
  apply (keys_raise_only_on_empty_listing sample_exec "u" "example" 22 Space
           home_on_logs).
  exact home_on_logs_reachable.
Defined.

(** ** The output pane *)

Lemma append_output_lines line s :
  output_lines (append_output line s)
  = if (30 <? len (output_lines s ++ [line]))
    then drop 1 (output_lines s ++ [line])
    else output_lines s ++ [line].
Proof. reflexivity. Qed.

Lemma log_lines_last ls : forall s,
  (length (output_lines s) <= 30)%nat ->
  output_lines (log_lines ls s)
  = drop (length (output_lines s ++ ls) - 30) (output_lines s ++ ls).
Proof.
  induction ls as [|line ls IH]; intros s Hs.
  - simpl. rewrite app_nil_r.
    replace (length (output_lines s) - 30)%nat with 0%nat by lia.
    reflexivity.
  - change (log_lines (line :: ls) s)
      with (log_lines ls (append_output line s)).
    assert (output_lines s ++ line :: ls
            = (output_lines s ++ [line]) ++ ls) as E
      by now rewrite <- app_assoc.
    rewrite E. set (l1 := output_lines s ++ [line]).
    assert (length l1 = S (length (output_lines s))) as Hl1
      by (unfold l1; rewrite length_app; simpl; lia).
    pose proof (append_output_lines line s) as Ha. fold l1 in Ha.
    unfold len in Ha. destruct (Z.ltb_spec 30 (Z.of_nat (length l1))).
    + rewrite IH by (rewrite Ha, length_drop; lia).
      rewrite Ha.
      assert (drop 1 l1 ++ ls = drop 1 (l1 ++ ls)) as ->.
      { destruct l1; [simpl in Hl1; lia | reflexivity]. }
      rewrite drop_drop. f_equal.
      rewrite length_drop, !length_app. lia.
    + rewrite IH by (rewrite Ha; lia). now rewrite Ha.
Qed.

Lemma log_lines_frame ls : forall s,
  let s' := log_lines ls s in
  cwd s' = cwd s /\ selected s' = selected s
  /\ selected_files s' = selected_files s /\ message s' = message s
  /\ active_procs s' = active_procs s /\ page_start s' = page_start s
  /\ entries s' = entries s.
Proof.
  induction ls as [|line ls IH]; intros s; [cbv zeta; tauto|].
  change (log_lines (line :: ls) s)
    with (log_lines ls (append_output line s)).
  specialize (IH (append_output line s)). cbv zeta in *. simpl in IH.
  exact IH.
Qed.

(** X4: the output pane is a window on the last 30 lines: starting with
    at most 30 lines, after any lines went through [append_output] the
    pane holds the last 30 lines of all of them, oldest first (all of
    them when there are fewer), and never more than 30. *)
Theorem output_pane_keeps_last_30 ls s :
  (length (output_lines s) <= 30)%nat ->
  output_lines (log_lines ls s)
  = drop (length (output_lines s ++ ls) - 30) (output_lines s ++ ls)
  /\ (length (output_lines (log_lines ls s)) <= 30)%nat
  /\ (length (output_lines (log_lines ls s))
      = Nat.min 30 (length (output_lines s) + length ls))%nat.
Proof.
  intros Hs. rewrite (log_lines_last ls s Hs).
  split; [reflexivity|]. rewrite length_drop, length_app. lia.
Qed.

Lemma output_pane_keeps_last_30_witness :
  output_lines (log_lines ["a"; "b"] (fresh_browser "/" []))
  = drop (length (output_lines (fresh_browser "/" []) ++ ["a"; "b"]) - 30)
      (output_lines (fresh_browser "/" []) ++ ["a"; "b"])
  /\ (length (output_lines (log_lines ["a"; "b"] (fresh_browser "/" [])))
      <= 30)%nat
  /\ (length (output_lines (log_lines ["a"; "b"] (fresh_browser "/" [])))
      = Nat.min 30 (length (output_lines (fresh_browser "/" []))
                    + length ["a"; "b"]))%nat.
Proof.
  apply (output_pane_keeps_last_30 ["a"; "b"] (fresh_browser "/" [])).
  simpl. lia.
Defined.

(** ** The start of the program *)



Lemma rstrip_all_space s : all_space s -> Py.rstrip s = EmptyString.
Proof.
  induction s as [|c s IH]; intros H; [reflexivity|].
  inversion H as [|? ? Hc Hs]; subst. simpl. rewrite IH by assumption.
  now rewrite Hc.
Qed.

Lemma rstrip_app_space s w : all_space w -> Py.rstrip (s +:+ w) = Py.rstrip s.
Proof.
  intros Hw. induction s as [|c s IH].
  - rewrite append_nil_l. now apply rstrip_all_space.
  - rewrite append_cons. simpl. now rewrite IH.
Qed.


(** X6: when the home directory is asked for with success but the answer
    is empty or only whitespace, the start path is the relative path
    [.], and that is where the browser starts. *)
Theorem blank_home_is_dot exec user host port :
  let r := exec (ssh_argv user host port "echo $HOME") in
  returncode r = 0 -> all_space (stdout r) ->
  get_remote_home exec user host port = Ok "."
  /\ (forall ok, check_and_install_rsync exec user host port = Ok ok ->
                 main exec user host port
                 = start_browser exec user host port ".").
Proof.
  cbv zeta. intros Hrc Hs.
  assert (get_remote_home exec user host port = Ok ".") as E.
  { unfold get_remote_home, subprocess_run. simpl. rewrite Hrc. simpl.
    unfold Py.strip. now rewrite rstrip_all_space. }
  split; [exact E|]. intros ok Hok. unfold main. now rewrite Hok, E.
Qed.

Lemma blank_home_is_dot_witness :
  get_remote_home (fun _ => mkCompleted 0 nl) "u" "example" 22 = Ok "."
  /\ (forall ok,
        check_and_install_rsync (fun _ => mkCompleted 0 nl) "u" "example" 22
        = Ok ok ->
        main (fun _ => mkCompleted 0 nl) "u" "example" 22
        = start_browser (fun _ => mkCompleted 0 nl) "u" "example" 22 ".").
Proof.
  apply (blank_home_is_dot (fun _ => mkCompleted 0 nl) "u" "example" 22).
  - reflexivity.
  - repeat constructor.
Defined.

(** ** Progress numbers *)





(** ** What a transfer reports *)



Lemma messages_app a b : messages (a ++ b) = messages a ++ messages b.
Proof. apply omap_app. Qed.






(** ** The download batch *)

Lemma rsync_pull_result popen user host remote_path local_path port follow
    (l : list Popen) b :
  let p := popen (rsync_cmd user host remote_path local_path port follow) in
  rsync_pull popen user host remote_path local_path port follow (Some l) b
  = (reader b (proc_lines p)
     ++ [SetMessage (if proc_rc p =? 0 then msg_complete else msg_failed)],
     Some match list_remove (handle p) (l ++ [handle p]) with
          | Ok l' => l'
          | Raise _ => l ++ [handle p]
          end).
Proof.
  cbv zeta. unfold rsync_pull, rsync_finish, rsync_register.
  set (p := popen _). simpl.
  destruct (list_remove (handle p) (l ++ [handle p]));
    now destruct (proc_rc p =? 0).
Qed.

Lemma apply_callbacks_frame calls : forall s,
  let s' := foldl apply_callback s calls in
  cwd s' = cwd s /\ selected s' = selected s
  /\ selected_files s' = selected_files s
  /\ active_procs s' = active_procs s /\ page_start s' = page_start s
  /\ entries s' = entries s.
Proof.
  induction calls as [|c calls IH]; intros s; [cbv zeta; tauto|].
  specialize (IH (apply_callback s c)). cbv zeta in *. simpl.
  destruct c; exact IH.
Qed.

Lemma apply_callbacks_message calls : forall s,
  message (foldl apply_callback s calls)
  = default (message s) (last (messages calls)).
Proof.
  induction calls as [|c calls IH]; intros s; [reflexivity|].
  simpl. rewrite IH. destruct c as [m|l]; [|reflexivity].
  change (messages (SetMessage m :: calls)) with (m :: messages calls).
  rewrite last_cons. simpl. now destruct (last (messages calls)).
Qed.

Lemma log_lines_output_ext ls : forall s s',
  output_lines s = output_lines s' ->
  output_lines (log_lines ls s) = output_lines (log_lines ls s').
Proof.
  induction ls as [|line ls IH]; intros s s' E; [exact E|].
  change (log_lines (line :: ls) s)
    with (log_lines ls (append_output line s)).
  change (log_lines (line :: ls) s')
    with (log_lines ls (append_output line s')).
  apply IH. now rewrite !append_output_lines, E.
Qed.

Lemma apply_callbacks_output calls : forall s,
  output_lines (foldl apply_callback s calls)
  = output_lines (log_lines (appended calls) s).
Proof.
  induction calls as [|c calls IH]; intros s; [reflexivity|].
  simpl. rewrite IH. destruct c as [m|l]; [|reflexivity].
  now apply log_lines_output_ext.
Qed.

Lemma download_one_frame popen user host port s n :
  let s' := (download_one popen user host port s n).2 in
  cwd s' = cwd s /\ selected s' = selected s
  /\ selected_files s' = selected_files s
  /\ page_start s' = page_start s /\ entries s' = entries s.
Proof.
  cbv zeta. unfold download_one, with_active_procs. cbv zeta.
  cbn [snd cwd selected selected_files page_start entries].
  pose proof (apply_callbacks_frame
    (rsync_pull popen user host (PosixPath.join (cwd s) n) "." port false
       (Some (active_procs s)) true).1 s) as H.
  cbv zeta in H. tauto.
Qed.

Lemma download_one_message popen user host port s n :
  message (download_one popen user host port s n).2
  = if proc_rc (popen (rsync_cmd user host (PosixPath.join (cwd s) n) "."
                         port false)) =? 0
    then msg_complete else msg_failed.
Proof.
  unfold download_one, with_active_procs. cbv zeta. cbn [snd message].
  rewrite apply_callbacks_message.
  pose proof (rsync_pull_result popen user host
                (PosixPath.join (cwd s) n) "." port false (active_procs s)
                true) as E.
  cbv zeta in E. rewrite E. cbn [fst]. rewrite messages_app.
  change (messages [SetMessage ?m]) with [m]. now rewrite last_snoc.
Qed.

Lemma download_one_active popen user host port s n :
  handle (popen (rsync_cmd user host (PosixPath.join (cwd s) n) "." port
                   false)) ∉ active_procs s ->
  active_procs (download_one popen user host port s n).2 = active_procs s.
Proof.
  intros H. unfold download_one, with_active_procs. cbv zeta.
  cbn [snd active_procs].
  pose proof (rsync_pull_result popen user host
                (PosixPath.join (cwd s) n) "." port false (active_procs s)
                true) as E.
  cbv zeta in E. rewrite E. cbn [snd default].
  now rewrite (list_remove_fresh _ _ H).
Qed.

Lemma download_one_output popen user host port s n :
  (length (output_lines s) <= 30)%nat ->
  (length (output_lines (download_one popen user host port s n).2) <= 30)%nat.
Proof.
  intros H. unfold download_one, with_active_procs. cbv zeta.
  cbn [snd output_lines]. rewrite apply_callbacks_output.
  rewrite (log_lines_last _ s H), length_drop. lia.
Qed.

(** The loop of the [d] handler, from any list of commands and state. *)
Lemma key_d_loop popen user host port order : forall acc s,
  let run :=
    foldl (fun acc n =>
             let r := download_one popen user host port acc.2 n in
             (acc.1 ++ [r.1], r.2))
          (acc, s) order in
  run.1 = acc ++ ((fun n => rsync_cmd user host (PosixPath.join (cwd s) n)
                               "." port false) <$> order)
  /\ cwd run.2 = cwd s /\ selected run.2 = selected s
  /\ page_start run.2 = page_start s /\ entries run.2 = entries s
  /\ ((forall argv, handle (popen argv) ∉ active_procs s) ->
      active_procs run.2 = active_procs s)
  /\ ((length (output_lines s) <= 30)%nat ->
      (length (output_lines run.2) <= 30)%nat).
Proof.
  induction order as [|n order IH]; intros acc s.
  - cbv zeta. simpl. rewrite app_nil_r. tauto.
  - cbv zeta. cbn [foldl fst snd].
    destruct (download_one_frame popen user host port s n)
      as (Hc & Hs & _ & Hp & He).
    specialize (IH (acc ++ [(download_one popen user host port s n).1])
                  (download_one popen user host port s n).2).
    cbv zeta in IH. destruct IH as (I1 & I2 & I3 & I4 & I5 & I6 & I7).
    rewrite I1, I2, I3, I4, I5, Hc, Hs, Hp, He.
    split; [now rewrite <- app_assoc|]. repeat split.
    + intros Hf. rewrite I6.
      * now apply download_one_active.
      * intros argv. rewrite download_one_active by apply Hf. apply Hf.
    + intros Ho. apply I7. now apply download_one_output.
Qed.

(** X9: a download batch that runs undisturbed launches one transfer for
    each marked name, in the order the set yields them: the source is the
    name joined to the current directory, the destination is [.], and
    links are not followed.  When it is over no name is marked; path,
    listing, cursor and page are as before; the handles on the list of
    live handles are those that were there before, provided the handles
    of the batch are new; the output pane still holds at most 30 lines. *)
Theorem download_batch popen user host port order s :
  let r := key_d popen user host port order s in
  r.1 = (fun n => rsync_cmd user host (PosixPath.join (cwd s) n) "." port
                    false) <$> order
  /\ selected_files r.2 = ∅
  /\ cwd r.2 = cwd s /\ entries r.2 = entries s
  /\ selected r.2 = selected s /\ page_start r.2 = page_start s
  /\ ((forall argv, handle (popen argv) ∉ active_procs s) ->
      active_procs r.2 = active_procs s)
  /\ ((length (output_lines s) <= 30)%nat ->
      (length (output_lines r.2) <= 30)%nat)
  /\ (NoDup order ->
      (forall n, n ∈ order <-> n ∈ selected_files s) ->
      length r.1 = size (selected_files s)).
Proof.
  cbv zeta. unfold key_d. cbn [fst snd cwd entries selected page_start
    selected_files active_procs output_lines].
  destruct (key_d_loop popen user host port order [] s)
    as (H1 & H2 & H3 & H4 & H5 & H6 & H7).
  cbv zeta in *. rewrite H1. simpl. repeat split; try assumption.
  intros Hn Hm. rewrite length_fmap.
  assert (order ≡ₚ elements (selected_files s)) as ->.
  { apply NoDup_Permutation; [assumption | apply NoDup_elements|].
    intros x. rewrite elem_of_elements. apply Hm. }
  reflexivity.
Qed.

Lemma download_batch_witness :
  active_procs (key_d (sample_popen 0) "u" "example" 22 ["logs"]
                  home_logs_marked).2 = active_procs home_logs_marked
  /\ length (key_d (sample_popen 0) "u" "example" 22 ["logs"]
               home_logs_marked).1 = size (selected_files home_logs_marked).
Proof.
  destruct (download_batch (sample_popen 0) "u" "example" 22 ["logs"]
              home_logs_marked) as (_ & _ & _ & _ & _ & _ & H1 & _ & H2).
  split.
  - apply H1. intros argv. apply not_elem_of_nil.
  - apply H2.
    + repeat constructor. apply not_elem_of_nil.
    + intros n. unfold home_logs_marked. simpl.
      rewrite elem_of_union, elem_of_singleton, list_elem_of_singleton.
      split; [tauto|]. intros [H|H]; [|exact H].
      now apply not_elem_of_empty in H.
Defined.

(** X10: after a download batch of at least one name the status line
    shows the outcome of the last transfer of the batch: the message for
    a complete transfer when its exit code is 0, the message for a failed
    one otherwise, whatever the earlier transfers did; a batch with no
    marked name launches nothing and leaves status and output pane as
    they are. *)
Theorem download_batch_status popen user host port order n s :
  let last_rc :=
    proc_rc (popen (rsync_cmd user host (PosixPath.join (cwd s) n) "." port
                      false)) in
  message (key_d popen user host port (order ++ [n]) s).2
  = (if last_rc =? 0 then msg_complete else msg_failed)
  /\ (key_d popen user host port [] s).1 = []
  /\ message (key_d popen user host port [] s).2 = message s
  /\ output_lines (key_d popen user host port [] s).2 = output_lines s.
Proof.
  cbv zeta. split; [|now repeat split].
  destruct (key_d_loop popen user host port order [] s) as (_ & Hc & _).
  cbv zeta in Hc. unfold key_d. rewrite foldl_snoc.
  set (run := foldl _ ([], s) order) in *.
  cbn [snd message]. now rewrite download_one_message, Hc.
Qed.

(** ** The page shown *)

(** The row [get_line] gives for an index in range. *)
Lemma get_line_row entries sel marked idx :
  0 <= idx < len entries ->
  exists e row,
    entries !! Z.to_nat idx = Some e
    /\ get_line entries sel marked idx = Ok row
    /\ row.2 = (if idx =? sel then "➤ " else "  ")
               +:+ (if bool_decide (Entry.name e ∈ marked)
                    then "[*] " else "    ")
               +:+ Entry.name e +:+ nl
    /\ (row.1 = "class:selected" <-> idx = sel).
Proof.
  intros H. destruct (index_in_range entries idx H) as (e & He & Hl).
  exists e. unfold get_line. rewrite He. simpl.
  destruct (Z.eqb_spec idx sel) as [->|Hne].
  - eexists. split; [exact Hl|]. split; [reflexivity|].
    split; [reflexivity|]. simpl. tauto.
  - eexists. split; [exact Hl|]. split; [reflexivity|].
    split; [reflexivity|]. simpl.
    split; [|tauto]. intros E. exfalso.
    destruct (bool_decide (Entry.name e ∈ marked)); [discriminate E|].
    destruct (bool_decide (Entry.ftype e = "d")); [discriminate E|].
    destruct (bool_decide (Entry.ftype e = "l")); discriminate E.
Qed.

Lemma get_lines_loop_rows entries sel marked idxs : forall acc,
  Forall (fun i => 0 <= i < len entries) idxs ->
  exists rows,
    get_lines_loop entries sel marked idxs acc = Ok (acc ++ rows)
    /\ Forall2 (fun idx row => get_line entries sel marked idx = Ok row)
         idxs rows.
Proof.
  induction idxs as [|idx idxs IH]; intros acc H.
  - exists []. split; [now rewrite app_nil_r | constructor].
  - inversion H as [|? ? Hi Hr]; subst.
    destruct (get_line_row entries sel marked idx Hi)
      as (e & row & _ & Hrow & _).
    destruct (IH (acc ++ [row]) Hr) as (rows & Hrows & Hall).
    exists (row :: rows). split.
    + simpl. rewrite Hrow. simpl. rewrite Hrows. now rewrite <- app_assoc.
    + now constructor.
Qed.

(** X11: in a reachable state drawing the page raises nothing and gives
    the rows from the page start on, one per entry and at most 20: the
    text of a row is a two-character prefix, the mark (a star in
    brackets and a space when the name is marked, four spaces otherwise),
    the name and a line break;
    the row under the cursor, and no other, has the arrow prefix and the
    style [class:selected]; with a listing that is not empty the row
    under the cursor is among those drawn. *)
Theorem page_shows_cursor_row user host port s :
  reachable user host port s ->
  exists rows,
    body_text s = Ok rows
    /\ length rows
       = Z.to_nat (Z.min page_size (len (entries s) - page_start s))
    /\ (length rows <= 20)%nat
    /\ (forall k row,
          rows !! k = Some row ->
          exists e,
            entries s !! (Z.to_nat (page_start s) + k)%nat = Some e
            /\ row.2 = (if page_start s + Z.of_nat k =? selected s
                        then "➤ " else "  ")
                       +:+ (if bool_decide (Entry.name e ∈ selected_files s)
                            then "[*] " else "    ")
                       +:+ Entry.name e +:+ nl
            /\ (row.1 = "class:selected"
                <-> page_start s + Z.of_nat k = selected s))
    /\ (entries s <> [] ->
        exists row,
          rows !! Z.to_nat (selected s - page_start s) = Some row
          /\ row.1 = "class:selected").
Proof.
  intros Hr. destruct (reachable_in_window _ _ _ _ Hr) as (Hs & Hp & Hw).
  unfold page_size in *.
  unfold body_text, get_lines, range, page_size.
  set (n := Z.min (page_start s + 20) (len (entries s)) - page_start s).
  assert (Forall (fun i => 0 <= i < len (entries s))
            (seqZ (page_start s) n)) as Hall.
  { apply Forall_forall. intros i Hi.
    apply list_elem_of_lookup in Hi as [k Hk].
    apply lookup_seqZ in Hk as [-> Hk]. unfold n in Hk. lia. }
  destruct (get_lines_loop_rows (entries s) (selected s) (selected_files s)
              _ [] Hall) as (rows & Hrows & Hf).
  exists rows. split; [exact Hrows|].
  assert (length rows = Z.to_nat n) as Hlen.
  { rewrite <- (Forall2_length _ _ _ Hf). apply length_seqZ. }
  assert (n = Z.min 20 (len (entries s) - page_start s)) as Hn
    by (unfold n; lia).
  split; [now rewrite Hlen, Hn|]. split; [rewrite Hlen; lia|]. split.
  - intros k row Hk.
    destruct (Forall2_lookup_r _ _ _ _ _ Hf Hk) as (idx & Hidx & Hrow).
    apply lookup_seqZ in Hidx as [-> Hkn].
    destruct (get_line_row (entries s) (selected s) (selected_files s)
                (page_start s + Z.of_nat k)) as (e & row' & He & Hr' & Ht & Hst).
    { unfold n in Hkn. lia. }
    rewrite Hr' in Hrow. injection Hrow as <-.
    exists e. split; [|split; assumption].
    rewrite <- He. f_equal. lia.
  - intros Hne.
    assert (0 < len (entries s)) as Hpos.
    { unfold len. destruct (entries s); [congruence | simpl; lia]. }
    assert (seqZ (page_start s) n !! Z.to_nat (selected s - page_start s)
            = Some (selected s)) as Hi.
    { rewrite lookup_seqZ_lt by (unfold n; lia). f_equal. lia. }
    destruct (Forall2_lookup_l _ _ _ _ _ Hf Hi) as (row & Hrow & Hg).
    exists row. split; [exact Hrow|].
    destruct (get_line_row (entries s) (selected s) (selected_files s)
                (selected s)) as (e & row' & _ & Hr' & _ & Hst); [lia|].
    rewrite Hr' in Hg. injection Hg as <-. now apply Hst.
Qed.

Lemma page_shows_cursor_row_witness :
  exists rows,
    body_text home_on_logs = Ok rows
    /\ length rows
       = Z.to_nat (Z.min page_size
                     (len (entries home_on_logs) - page_start home_on_logs))
    /\ (length rows <= 20)%nat
    /\ (forall k row,
          rows !! k = Some row ->
          exists e,
            entries home_on_logs !! (Z.to_nat (page_start home_on_logs) + k)%nat
            = Some e
            /\ row.2 = (if page_start home_on_logs + Z.of_nat k
                           =? selected home_on_logs
                        then "➤ " else "  ")
                       +:+ (if bool_decide
                                 (Entry.name e ∈ selected_files home_on_logs)
                            then "[*] " else "    ")
                       +:+ Entry.name e +:+ nl
            /\ (row.1 = "class:selected"
                <-> page_start home_on_logs + Z.of_nat k
                    = selected home_on_logs))
    /\ (entries home_on_logs <> [] ->
        exists row,
          rows !! Z.to_nat (selected home_on_logs - page_start home_on_logs)
          = Some row
          /\ row.1 = "class:selected").
Proof.
  apply (page_shows_cursor_row "u" "example" 22 home_on_logs).
  exact home_on_logs_reachable.
Defined.

Example body_text_sample :
  body_text home_logs_marked
  = Ok [("class:directory", "      .." +:+ nl);
        ("class:selected", "➤ [*] logs" +:+ nl);
        ("class:file", "      a.txt" +:+ nl);
        ("class:directory", "      secret" +:+ nl)].
Proof. vm_compute. reflexivity. Qed.

(** ** Going down and up *)

Lemma abs_path_not_root cs c :
  Forall component cs -> component c -> abs_path (cs ++ [c]) <> "/".
Proof.
  intros Hcs Hc E. unfold abs_path in E.
  destruct (join_components_head (cs ++ [c])) as (_ & _ & Hn).
  - now destruct cs.
  - apply Forall_app. split; [assumption | now constructor].
  - apply Hn. change ("/" +:+ Py.join "/" (cs ++ [c]))
      with (String "/" (Py.join "/" (cs ++ [c]))) in E.
    now injection E.
Qed.

Lemma index_head {A : Type} (x : A) (l : list A) : Py.index (x :: l) 0 = Ok x.
Proof.
  destruct (index_in_range (x :: l) 0) as (y & Hy & Hl).
  - unfold len. simpl length. lia.
  - simpl in Hl. now injection Hl as <-.
Qed.

(** X12: [Enter] on a directory [c] of [/c1/.../cn] makes [/c1/.../cn/c]
    the current path.  When the host can list it, the cursor is on its
    parent row and a second [Enter] leads back to [/c1/.../cn]; when the
    host cannot, the listing is empty and both [Enter] and the mark key
    raise [IndexError], so the way back is closed. *)
Theorem enter_then_up exec user host port s e cs :
  cwd s = abs_path cs -> Forall component cs ->
  Py.index (entries s) (selected s) = Ok e ->
  Entry.ftype e = "d" -> component (Entry.name e) -> Entry.name e <> ".." ->
  exists s1,
    key_enter exec user host port s = Ok s1
    /\ cwd s1 = abs_path (cs ++ [Entry.name e])
    /\ ((exists cmd, cmd ∈ ls_cmds (cwd s1)
                     /\ returncode (exec (ssh_argv user host port cmd)) = 0) ->
        head (entries s1) = Some dotdot
        /\ exists s2, key_enter exec user host port s1 = Ok s2
                      /\ cwd s2 = cwd s)
    /\ (Forall (ls_fails exec user host port) (ls_cmds (cwd s1)) ->
        entries s1 = []
        /\ key_enter exec user host port s1 = Raise IndexError
        /\ key_space s1 = Raise IndexError).
Proof.
  intros Hcwd Hcs He Hd Hc Hn.
  destruct (key_enter_changes_dir exec user host port s e He (or_intror Hd))
    as (s1 & H1 & H2 & H3 & H4 & _).
  rewrite (bool_decide_eq_false_2 _ Hn), Hcwd, join_abs_path in H2
    by assumption.
  exists s1. split; [exact H1|]. split; [exact H2|]. split.
  - intros (cmd & Hin & Hrc).
    destruct (ls_first_success exec user host port (ls_cmds (cwd s1)))
      as [H|(pre & c & post & E & Hpre & Hc')].
    { exfalso. rewrite Forall_forall in H. exact (H cmd Hin Hrc). }
    rewrite (get_entries_first _ _ _ _ _ pre c post E Hpre Hc') in H3.
    rewrite bool_decide_eq_false_2 in H3
      by (rewrite H2; now apply abs_path_not_root).
    injection H3 as H3. simpl in H3.
    split; [now rewrite <- H3|].
    destruct (key_enter_changes_dir exec user host port s1 dotdot)
      as (s2 & K1 & K2 & _).
    + rewrite <- H3, H4. apply index_head.
    + now left.
    + exists s2. split; [exact K1|].
      rewrite K2. simpl. rewrite H2, Hcwd.
      now apply parent_dir_abs_path.
  - intros Hf. rewrite (get_entries_all_fail _ _ _ _ _ Hf) in H3.
    injection H3 as H3. symmetry in H3.
    split; [exact H3|]. split.
    + now apply key_enter_empty.
    + now apply key_space_empty.
Qed.

Lemma enter_then_up_witness :
  exists s1,
    key_enter sample_exec "u" "example" 22 home_on_logs = Ok s1
    /\ cwd s1 = abs_path (["home"; "u"] ++ [Entry.name logs_entry])
    /\ ((exists cmd, cmd ∈ ls_cmds (cwd s1)
                     /\ returncode (sample_exec
                                      (ssh_argv "u" "example" 22 cmd)) = 0) ->
        head (entries s1) = Some dotdot
        /\ exists s2, key_enter sample_exec "u" "example" 22 s1 = Ok s2
                      /\ cwd s2 = cwd home_on_logs)
    /\ (Forall (ls_fails sample_exec "u" "example" 22) (ls_cmds (cwd s1)) ->
        entries s1 = []
        /\ key_enter sample_exec "u" "example" 22 s1 = Raise IndexError
        /\ key_space s1 = Raise IndexError).
Proof.
  apply (enter_then_up sample_exec "u" "example" 22 home_on_logs logs_entry
           ["home"; "u"]).
  - reflexivity.
  - repeat constructor; discriminate.
  - vm_compute. reflexivity.
  - reflexivity.
  - repeat constructor; discriminate.
  - discriminate.
Defined.

(** X13: going to the parent as many times as the path has components
    leads from [/c1/.../cn] to the root, and from the root going to the
    parent leads to the root again. *)
Theorem parents_lead_to_root cs :
  Forall component cs ->
  Nat.iter (length cs) parent_dir (abs_path cs) = "/"
  /\ parent_dir (Nat.iter (length cs) parent_dir (abs_path cs)) = "/".
Proof.
  intros H.
  assert (Nat.iter (length cs) parent_dir (abs_path cs) = "/") as E.
  { induction cs as [|c cs IH] using rev_ind; [reflexivity|].
    apply Forall_app in H as [Hcs Hc]. inversion Hc; subst.
    rewrite length_app. simpl length.
    replace (length cs + 1)%nat with (S (length cs)) by lia.
    rewrite Nat.iter_succ_r, parent_dir_abs_path by assumption.
    now apply IH. }
  split; [exact E|]. now rewrite E.
Qed.

Lemma parents_lead_to_root_witness :
  Nat.iter (length ["home"; "u"; "logs"]) parent_dir
    (abs_path ["home"; "u"; "logs"]) = "/"
  /\ parent_dir (Nat.iter (length ["home"; "u"; "logs"]) parent_dir
                   (abs_path ["home"; "u"; "logs"])) = "/".
Proof.
  apply (parents_lead_to_root ["home"; "u"; "logs"]).
  repeat constructor; discriminate.
Defined.

(** ** Paging and single steps *)

Lemma run_moves_cons m ms s :
  run_moves (m :: ms) s = run_moves ms (key_move m s).
Proof. reflexivity. Qed.

Lemma downs_cursor n : forall s,
  in_window s ->
  selected (run_moves (replicate n MoveDown) s)
  = Z.min (Z.max 0 (len (entries s) - 1)) (selected s + Z.of_nat n).
Proof.
  induction n as [|n IH]; intros s Hw.
  - simpl. destruct Hw as (H & _). lia.
  - cbn [replicate]. rewrite run_moves_cons.
    destruct (key_move_in_window MoveDown s Hw) as [Hw' E].
    rewrite IH by exact Hw'. rewrite E.
    destruct Hw as (H & _). simpl. unfold key_down.
    destruct (Z.ltb_spec (selected s) (len (entries s) - 1)); simpl; lia.
Qed.

Lemma ups_cursor n : forall s,
  in_window s ->
  selected (run_moves (replicate n MoveUp) s)
  = Z.max 0 (selected s - Z.of_nat n).
Proof.
  induction n as [|n IH]; intros s Hw.
  - simpl. destruct Hw as (H & _). lia.
  - cbn [replicate]. rewrite run_moves_cons.
    destruct (key_move_in_window MoveUp s Hw) as [Hw' E].
    rewrite IH by exact Hw'.
    destruct Hw as (H & _). simpl. unfold key_up.
    destruct (Z.ltb_spec 0 (selected s)); simpl; lia.
Qed.

(** X14: in a reachable state the page-down key puts the cursor where 20
    presses of the down key put it, and the page-up key where 20 presses
    of the up key put it: 20 rows further, or on the last (first) row when
    fewer are left. *)
Theorem page_key_is_twenty_steps user host port s :
  reachable user host port s ->
  selected (key_pagedown s)
  = selected (run_moves (replicate 20 MoveDown) s)
  /\ selected (key_pagedown s)
     = Z.min (Z.max 0 (len (entries s) - 1)) (selected s + 20)
  /\ selected (key_pageup s) = selected (run_moves (replicate 20 MoveUp) s)
  /\ selected (key_pageup s) = Z.max 0 (selected s - 20).
Proof.
  intros Hr. pose proof (reachable_in_window _ _ _ _ Hr) as Hw.
  rewrite (downs_cursor 20 s Hw), (ups_cursor 20 s Hw).
  destruct Hw as (H & _).
  unfold key_pagedown, key_pageup, page_size.
  destruct (Z.ltb_spec (selected s) (len (entries s) - 1));
    destruct (Z.ltb_spec 0 (selected s)); simpl; lia.
Qed.

Lemma page_key_is_twenty_steps_witness :
  selected (key_pagedown home_on_logs)
  = selected (run_moves (replicate 20 MoveDown) home_on_logs)
  /\ selected (key_pagedown home_on_logs)
     = Z.min (Z.max 0 (len (entries home_on_logs) - 1))
         (selected home_on_logs + 20)
  /\ selected (key_pageup home_on_logs)
     = selected (run_moves (replicate 20 MoveUp) home_on_logs)
  /\ selected (key_pageup home_on_logs)
     = Z.max 0 (selected home_on_logs - 20).
Proof.
  apply (page_key_is_twenty_steps "u" "example" 22 home_on_logs).
  exact home_on_logs_reachable.
Defined.

(** ** What each key leaves alone *)

Lemma key_enter_frame exec user host port s s' :
  key_enter exec user host port s = Ok s' ->
  selected_files s' = selected_files s /\ message s' = message s
  /\ active_procs s' = active_procs s /\ output_lines s' = output_lines s.
Proof.
  unfold key_enter, update_entries.
  destruct (Py.index (entries s) (selected s)) as [e|]; [|discriminate].
  simpl.
  destruct (bool_decide (Entry.name e = "..")).
  - destruct (get_entries exec user host port _) as [es|]; [|discriminate].
    simpl. intros [= <-]. simpl. tauto.
  - destruct (bool_decide (Entry.ftype e = "d")).
    + destruct (get_entries exec user host port _) as [es|]; [|discriminate].
      simpl. intros [= <-]. simpl. tauto.
    + intros [= <-]. tauto.
Qed.

Ltac frame_cases :=
  repeat split; try assumption; try reflexivity; try congruence;
  try match goal with
      | Hk : _ \/ _ |- _ => destruct Hk; discriminate
      end;
  try (let Hk := fresh in
       intros Hk; try assumption; try reflexivity;
       try (split; reflexivity);
       try (destruct Hk; discriminate); try congruence).

(** X15: no key handler of the browser touches the list of live handles
    or the output pane; only the mark key changes the marks, only [Enter]
    changes the path and the listing, only the key that dismisses the
    message changes the message, and neither the mark key nor that key
    moves the cursor or the page. *)
Theorem keys_touch_their_part exec user host port k s s' :
  handle_key exec user host port k s = Ok s' ->
  active_procs s' = active_procs s /\ output_lines s' = output_lines s
  /\ (k <> Space -> selected_files s' = selected_files s)
  /\ (k <> Enter -> cwd s' = cwd s /\ entries s' = entries s)
  /\ (k <> AnyKey -> message s' = message s)
  /\ (k = Space \/ k = AnyKey ->
      selected s' = selected s /\ page_start s' = page_start s).
Proof.
  intros H. destruct k; simpl in H.
  - injection H as <-. unfold key_up.
    destruct (0 <? selected s); simpl; frame_cases.
  - injection H as <-. unfold key_down.
    destruct (selected s <? len (entries s) - 1); simpl; frame_cases.
  - injection H as <-. unfold key_pageup.
    destruct (0 <? selected s); simpl; frame_cases.
  - injection H as <-. unfold key_pagedown.
    destruct (selected s <? len (entries s) - 1); simpl; frame_cases.
  - unfold key_space in H.
    destruct (Py.index (entries s) (selected s)); [|discriminate].
    simpl in H. injection H as <-. simpl. frame_cases.
  - destruct (key_enter_frame _ _ _ _ _ _ H) as (H1 & H2 & H3 & H4).
    frame_cases.
  - injection H as <-. unfold key_any.
    destruct (negb _); simpl; frame_cases.
Qed.

Lemma keys_touch_their_part_witness :
  active_procs logs_entered_marked = active_procs home_logs_marked
  /\ output_lines logs_entered_marked = output_lines home_logs_marked
  /\ (Enter <> Space ->
      selected_files logs_entered_marked = selected_files home_logs_marked)
  /\ (Enter <> Enter ->
      cwd logs_entered_marked = cwd home_logs_marked
      /\ entries logs_entered_marked = entries home_logs_marked)
  /\ (Enter <> AnyKey -> message logs_entered_marked = message home_logs_marked)
  /\ (Enter = Space \/ Enter = AnyKey ->
      selected logs_entered_marked = selected home_logs_marked
      /\ page_start logs_entered_marked = page_start home_logs_marked).
Proof.
  apply (keys_touch_their_part sample_exec "u" "example" 22 Enter
           home_logs_marked logs_entered_marked).
  vm_compute. reflexivity.
Defined.

(** ** The fields of a parsed row *)

(** The fields a split makes before its splits are used up hold no
    whitespace, and every field starts with a character that is none. *)
Lemma split_ws_from_clean s : forall (b : bool) (n : nat),
  if b then
    exists h t,
      Py.split_ws_from true n s = h :: t
      /\ no_space h /\ Forall no_space (take n t) /\ Forall at_field t
  else
    Forall no_space (take n (Py.split_ws_from false n s))
    /\ Forall at_field (Py.split_ws_from false n s).
Proof.
  induction s as [|c r IH]; intros b n.
  - destruct b; simpl.
    + exists EmptyString, []. repeat split; try constructor.
      now rewrite take_nil.
    + rewrite take_nil. split; constructor.
  - destruct b; simpl; destruct (Py.is_space c) eqn:Hc.
    + destruct (IH false n) as [H1 H2].
      exists EmptyString, (Py.split_ws_from false n r).
      repeat split; try assumption. constructor.
    + destruct (IH true n) as (h & t & -> & Hh & Ht & Hf).
      exists (String c h), t. repeat split; try assumption.
      now constructor.
    + apply (IH false n).
    + destruct n as [|m].
      * split; [constructor|]. constructor; [exact Hc | constructor].
      * destruct (IH true m) as (h & t & -> & Hh & Ht & Hf). simpl.
        split.
        -- constructor; [now constructor | exact Ht].
        -- constructor; [exact Hc | exact Hf].
Qed.

(** X16: every entry the parser gives has permissions, owner, group,
    size, date and time that are not empty and hold no whitespace, a type
    of exactly one character, and a name that is not empty and starts
    with a character that is no whitespace. *)
Theorem parsed_fields_are_clean output es :
  parse_ls_output output = Ok es ->
  Forall (fun e =>
            Forall (fun f => f <> EmptyString /\ no_space f)
              [Entry.perms e; Entry.user e; Entry.group e; Entry.size e;
               Entry.date e; Entry.time e]
            /\ String.length (Entry.ftype e) = 1%nat
            /\ at_field (Entry.name e)) es.
Proof.
  rewrite parse_ls_output_entries. intros [= <-].
  apply Forall_forall. intros e He.
  apply list_elem_of_omap in He as (line & _ & Hl).
  destruct (line_entry_type line e Hl) as (c & r & Hp & Ht).
  unfold line_entry in Hl. destruct (is_total line); [discriminate|].
  pose proof (split_ws_fields 7 line) as Hne.
  pose proof (split_ws_from_clean line false 7) as [Hns Haf].
  fold (Py.split_ws 7 line) in Hns, Haf.
  destruct (Py.split_ws 7 line)
    as [|f1 [|f2 [|f3 [|f4 [|f5 [|f6 [|f7 [|f8 [|f9 l]]]]]]]]];
    try discriminate.
  injection Hl as <-. cbn [take] in Hns.
  cbn [Entry.perms Entry.user Entry.group Entry.size Entry.date Entry.time
       Entry.ftype Entry.name].
  apply Forall_cons in Hns as [N1 Hns]. apply Forall_cons in Hns as [N2 Hns].
  apply Forall_cons in Hns as [N3 Hns]. apply Forall_cons in Hns as [N4 Hns].
  apply Forall_cons in Hns as [N5 Hns]. apply Forall_cons in Hns as [N6 Hns].
  apply Forall_cons in Hns as [N7 _].
  apply Forall_cons in Hne as [E1 Hne]. apply Forall_cons in Hne as [E2 Hne].
  apply Forall_cons in Hne as [E3 Hne]. apply Forall_cons in Hne as [E4 Hne].
  apply Forall_cons in Hne as [E5 Hne]. apply Forall_cons in Hne as [E6 Hne].
  apply Forall_cons in Hne as [E7 _].
  split; [|split].
  - repeat (apply Forall_cons; split; [split; assumption|]). constructor.
  - destruct f1; [congruence | reflexivity].
  - rewrite Forall_forall in Haf. apply Haf.
    do 7 apply list_elem_of_further. apply list_elem_of_here.
Qed.

Lemma parsed_fields_are_clean_witness :
  Forall (fun e =>
            Forall (fun f => f <> EmptyString /\ no_space f)
              [Entry.perms e; Entry.user e; Entry.group e; Entry.size e;
               Entry.date e; Entry.time e]
            /\ String.length (Entry.ftype e) = 1%nat
            /\ at_field (Entry.name e))
    [logs_entry; a_txt_entry; secret_entry].
Proof.
  apply (parsed_fields_are_clean home_listing).
  vm_compute. reflexivity.
Defined.

(** ** Paths that are already normal *)

Lemma split_name c :
  Forall (fun x => x <> "/"%char) (list_ascii_of_string c) ->
  Py.split "/" c = [c].
Proof.
  induction c as [|a c IH]; intros H; [reflexivity|].
  inversion H as [|? ? Ha Hc]; subst. simpl.
  rewrite eqb_slash_false by assumption. now rewrite IH.
Qed.

Lemma split_app_sep c rest :
  Forall (fun x => x <> "/"%char) (list_ascii_of_string c) ->
  Py.split "/" (c +:+ String "/" rest) = c :: Py.split "/" rest.
Proof.
  induction c as [|a c IH]; intros H; [reflexivity|].
  inversion H as [|? ? Ha Hc]; subst. rewrite append_cons. simpl.
  rewrite eqb_slash_false by assumption. now rewrite IH.
Qed.

(** Splitting at the slashes undoes joining names with slashes. *)
Lemma split_join cs :
  cs <> [] -> Forall component cs -> Py.split "/" (Py.join "/" cs) = cs.
Proof.
  induction cs as [|c [|d cs] IH]; intros Hne H; [congruence| |].
  - inversion H as [|? ? [_ Hc] _]; subst. now apply split_name.
  - inversion H as [|? ? [_ Hc] Hr]; subst.
    change (Py.join "/" (c :: d :: cs))
      with (c +:+ String "/" (Py.join "/" (d :: cs))).
    rewrite split_app_sep by assumption. f_equal.
    apply IH; [discriminate | assumption].
Qed.

Lemma fold_norm_step_plain k cs : forall acc,
  Forall (fun c => c <> EmptyString /\ c <> "." /\ c <> "..") cs ->
  fold_left (PosixPath.norm_step k) cs acc = acc ++ cs.
Proof.
  induction cs as [|c cs IH]; intros acc H; [now rewrite app_nil_r|].
  inversion H as [|? ? (H1 & H2 & H3) Hr]; subst. simpl.
  unfold PosixPath.norm_step at 2.
  rewrite (bool_decide_eq_false_2 _ H1), (bool_decide_eq_false_2 _ H2),
    (bool_decide_eq_false_2 _ H3).
  simpl. rewrite IH by assumption. now rewrite <- app_assoc.
Qed.

Lemma plain_names_components cs :
  Forall plain_name cs ->
  Forall component cs
  /\ Forall (fun c => c <> EmptyString /\ c <> "." /\ c <> "..") cs
  /\ Forall no_space cs.
Proof.
  induction 1 as [|c cs (Hc & Hs & H1 & H2) _ (I1 & I2 & I3)].
  - repeat split; constructor.
  - repeat split; constructor; try assumption.
    repeat split; try assumption. apply Hc.
Qed.

(** [normpath] leaves [/c1/.../cn] as it is when no [ci] is [.] or
    [..]. *)
Lemma normpath_abs_path cs :
  Forall plain_name cs ->
  PosixPath.normpath (abs_path cs) = abs_path cs.
Proof.
  intros H. destruct (plain_names_components cs H) as (Hc & Hp & _).
  destruct cs as [|c cs]; [reflexivity|].
  destruct (join_components_head (c :: cs) ltac:(discriminate) Hc)
    as (_ & _ & Hn).
  unfold PosixPath.normpath, abs_path.
  set (J := Py.join "/" (c :: cs)) in *.
  change ("/" +:+ J) with (String "/" J). cbn [Py.is_empty].
  assert (PosixPath.initial_slashes (String "/" J) = 1%nat) as ->.
  { unfold PosixPath.initial_slashes.
    change (Py.startswith "/" (String "/" J)) with true. cbv iota.
    assert (Py.startswith "//" (String "/" J) = false) as ->;
      [|reflexivity].
    inversion Hc as [|? ? Hc1 _]; subst.
    destruct (component_cons c Hc1) as (a & r & -> & Ha & _).
    assert (exists X, J = String a X) as [X ->].
    { unfold J. destruct cs; [now exists r | eexists; reflexivity]. }
    change (Py.startswith "//" (String "/" (String a X)))
      with (Ascii.eqb "/" "/" && (Ascii.eqb "/" a && true)).
    now rewrite (Ascii.eqb_sym "/" a), (eqb_slash_false a Ha). }
  cbv zeta.
  assert (Py.split "/" (String "/" J) = EmptyString :: c :: cs) as ->.
  { change (String "/" J) with ("" +:+ String "/" J).
    rewrite split_app_sep by constructor.
    unfold J. now rewrite split_join. }
  change (fold_left (PosixPath.norm_step 1) (EmptyString :: c :: cs) [])
    with (fold_left (PosixPath.norm_step 1) (c :: cs)
            (PosixPath.norm_step 1 [] "")).
  assert (PosixPath.norm_step 1 [] "" = []) as -> by reflexivity.
  rewrite fold_norm_step_plain by assumption.
  cbn [app PosixPath.repeat_slash]. fold J.
  change (String "/" "" +:+ J) with (String "/" J). reflexivity.
Qed.







(** X18: for a marked name [c] in the directory [/c1/.../cn] (names
    without whitespace, none [.] or [..]) the command of the transfer
    ends with the source [user@host:/c1/.../cn/c] and the destination
    [.]; before them come the fixed options and, only when links are to
    be followed, [-L]. *)
Theorem transfer_command_paths user host port follow cs c :
  Forall plain_name cs -> plain_name c ->
  rsync_cmd user host (PosixPath.join (abs_path cs) c) "." port follow
  = ["stdbuf"; "-oL"; "rsync"; "-avz"; "--progress"; "--partial"; "-e";
     "ssh -p " +:+ Py.str port +:+
     " -o LogLevel=ERROR -o StreamLocalBindUnlink=yes -o ServerAliveInterval=30"]
    ++ (if follow then ["-L"] else [])
    ++ [user +:+ "@" +:+ host +:+ ":" +:+ abs_path (cs ++ [c]); "."].
Proof.
  intros Hcs Hc.
  destruct (plain_names_components cs Hcs) as (Hcomp & _).
  unfold rsync_cmd.
  rewrite join_abs_path by (assumption || apply Hc).
  rewrite normpath_abs_path.
  - reflexivity.
  - apply Forall_app. split; [assumption | now constructor].
Qed.

Lemma transfer_command_paths_witness :
  rsync_cmd "u" "example" (PosixPath.join (abs_path ["home"; "u"]) "logs")
    "." 22 false
  = ["stdbuf"; "-oL"; "rsync"; "-avz"; "--progress"; "--partial"; "-e";
     "ssh -p " +:+ Py.str 22 +:+
     " -o LogLevel=ERROR -o StreamLocalBindUnlink=yes -o ServerAliveInterval=30"]
    ++ (if false then ["-L"] else [])
    ++ ["u" +:+ "@" +:+ "example" +:+ ":" +:+ abs_path (["home"; "u"] ++ ["logs"]);
        "."].
Proof.
  apply (transfer_command_paths "u" "example" 22 false ["home"; "u"] "logs");
    repeat constructor; discriminate.
Defined.

(** ** Blank space around a listing *)

Lemma lstrip_app_space w s :
  all_space w -> Py.lstrip (w +:+ s) = Py.lstrip s.
Proof.
  induction w as [|c w IH]; intros H; [reflexivity|].
  inversion H as [|? ? Hc Hw]; subst. rewrite append_cons. simpl.
  rewrite Hc. now apply IH.
Qed.

Lemma rstrip_app a b :
  Py.rstrip (a +:+ b)
  = if Py.is_empty (Py.rstrip b) then Py.rstrip a else a +:+ Py.rstrip b.
Proof.
  induction a as [|c a IH].
  - rewrite !append_nil_l. simpl. now destruct (Py.rstrip b).
  - rewrite append_cons. simpl. rewrite IH.
    destruct (Py.is_empty (Py.rstrip b)) eqn:E; [reflexivity|].
    rewrite append_cons.
    assert (Py.is_empty (a +:+ Py.rstrip b) = false) as ->.
    { destruct (Py.rstrip b); [discriminate | apply is_empty_app_cons]. }
    now rewrite andb_false_r.
Qed.

Lemma strip_padded w1 s w2 :
  all_space w1 -> all_space w2 ->
  Py.strip (w1 +:+ s +:+ w2) = Py.strip s.
Proof.
  intros H1 H2. unfold Py.strip.
  rewrite rstrip_app, (rstrip_app_space s w2 H2).
  destruct (Py.is_empty (Py.rstrip s)) eqn:E.
  - rewrite (rstrip_all_space w1 H1). apply is_empty_true in E.
    now rewrite E.
  - now apply lstrip_app_space.
Qed.

(** X19: whitespace before and after the output of the listing command
    (blank lines, the final line break) changes nothing: the parser gives
    the same entries as for the output without it. *)
Theorem parse_ignores_padding w1 output w2 :
  all_space w1 -> all_space w2 ->
  parse_ls_output (w1 +:+ output +:+ w2) = parse_ls_output output.
Proof.
  intros H1 H2. unfold parse_ls_output, ls_lines.
  now rewrite strip_padded.
Qed.

Lemma parse_ignores_padding_witness :
  parse_ls_output (nl +:+ home_listing +:+ (nl +:+ nl))
  = parse_ls_output home_listing.
Proof.
  apply (parse_ignores_padding nl home_listing (nl +:+ nl));
    repeat constructor.
Defined.
